(** * Trading journal analytics (main.py): a shallow embedding

    The analytics handlers of [main.py] read trade documents from a
    MongoDB collection and compute realized PnL, summary statistics, a
    per-day calendar and a cumulative equity curve.  This file embeds
    those functions and proves the properties stated for them.

    Conventions of the embedding:
    - a Python [float] is an IEEE-754 binary64 value, taken from the
      specification of floating-point arithmetic in [SpecFloat]
      (precision 53, maximal exponent 1024, round to nearest even);
    - a stored document is a finite map from field names to values; the
      values are the BSON/JSON values a document of this API can hold
      (its [_id], which no analytics handler reads, is left out);
    - a Python exception is an explicit result: every function that can
      raise returns an [outcome];
    - Python builtins whose grammar depends on the interpreter
      ([float] of a string, [datetime.fromisoformat], [str.upper]) are
      the fields of the class [Builtins]. *)

From Stdlib Require Import ZArith Bool List Lia Floats.SpecFloat.
From stdpp Require Import base option gmap strings list sorting.

Local Open Scope Z_scope.

(** ** Exceptions and results *)

Inductive exn :=
  | TypeError
  | ValueError
  | OverflowError
  | AttributeError
  | ZeroDivisionError
  | HTTPException (status_code : Z).

Inductive outcome (A : Type) :=
  | Ret (a : A)
  | Raise (e : exn).
Arguments Ret {A} a.
Arguments Raise {A} e.

#[global] Instance outcome_ret : MRet outcome := fun _ a => Ret a.
#[global] Instance outcome_bind : MBind outcome := fun _ _ f m =>
  match m with
  | Ret a => f a
  | Raise e => Raise e
  end.

(** [try: body except Exception: handler]; every exception of [exn] is a
    subclass of [Exception]. *)
Definition try_except {A} (body : outcome A) (handler : A) : outcome A :=
  match body with
  | Ret a => Ret a
  | Raise _ => Ret handler
  end.

(** ** Python floats *)

Module F.
Definition prec : Z := 53.
Definition emax : Z := 1024.

Definition add := SFadd prec emax.
Definition sub := SFsub prec emax.
Definition mul := SFmul prec emax.
Definition abs := SFabs.

(** [float(n)] for an integer [n], before the overflow test. *)
Definition of_Z (n : Z) : spec_float := binary_normalize prec emax n 0 false.

Definition zero : spec_float := S754_zero false.
Definition one : spec_float := of_Z 1.
Definition hundred : spec_float := of_Z 100.
Definition inf : spec_float := S754_infinity false.

Definition is_zero (x : spec_float) : bool :=
  match x with S754_zero _ => true | _ => false end.
Definition is_inf (x : spec_float) : bool :=
  match x with S754_infinity _ => true | _ => false end.

(** [x >= y] and [x < y]: both are false as soon as one side is a NaN. *)
Definition ge (x y : spec_float) : bool := SFleb y x.
Definition lt (x y : spec_float) : bool := SFltb x y.

(** [x / y]: Python raises when the divisor is a zero. *)
Definition div (x y : spec_float) : outcome spec_float :=
  if is_zero y then Raise ZeroDivisionError else Ret (SFdiv prec emax x y).

(** The representation invariant of binary64 values. *)
Definition valid (x : spec_float) : bool := valid_binary prec emax x.
End F.

(** ** Values and documents *)

#[local] Unset Elimination Schemes.
Inductive value :=
  | VNone
  | VBool (b : bool)
  | VInt (n : Z)
  | VFloat (f : spec_float)
  | VStr (s : string)
  | VDate (ms : Z)                      (* BSON UTC datetime, milliseconds since the epoch *)
  | VList (l : list value)
  | VDoc (l : list (string * value)).
#[local] Set Elimination Schemes.

(** A trade as the handlers see it: [Dict[str, Any]]. *)
Abbreviation doc := (gmap string value).

(** [d.get(k)] and [d.get(k, default)]. *)
Definition get (d : doc) (k : string) : value := default VNone (d !! k).
Definition get_or (d : doc) (k : string) (dflt : value) : value := default dflt (d !! k).

(** Truth value of an object, as [if x:], [not x] and [x or y] use it. *)
Definition truthy (v : value) : bool :=
  match v with
  | VNone => false
  | VBool b => b
  | VInt n => negb (n =? 0)
  | VFloat f => negb (F.is_zero f)
  | VStr s => negb (String.eqb s "")
  | VDate _ => true
  | VList l => match l with [] => false | _ => true end
  | VDoc l => match l with [] => false | _ => true end
  end.

(** [x or y] *)
Definition py_or (x y : value) : value := if truthy x then x else y.

(** [v == s] for a string literal [s]. *)
Definition eq_str (v : value) (s : string) : bool :=
  match v with
  | VStr s' => String.eqb s' s
  | _ => false
  end.

(** ** Builtins left abstract *)

(** A Python [datetime]: the proleptic Gregorian ordinal of its date
    ([date.toordinal()]), the microseconds elapsed since midnight, and
    the UTC offset in microseconds of an aware value ([None] when naive). *)
Record datetime := mk_datetime {
  ordinal : Z;
  usec : Z;
  utcoffset : option Z
}.

Class Builtins := {
  (** [float(s)] on a string: [None] stands for [ValueError]. *)
  float_of_str : string -> option spec_float;
  (** [datetime.fromisoformat(s)]: [None] stands for [ValueError]. *)
  fromisoformat : string -> option datetime;
  (** [s.upper()] *)
  upper : string -> string
}.

Section Pnl.
Context {B : Builtins}.

(** [float(v)] *)
Definition py_float (v : value) : outcome spec_float :=
  match v with
  | VNone => Raise TypeError
  | VBool b => Ret (if b then F.one else F.zero)
  | VInt n => if F.is_inf (F.of_Z n) then Raise OverflowError else Ret (F.of_Z n)
  | VFloat f => Ret f
  | VStr s => match float_of_str s with
              | Some f => Ret f
              | None => Raise ValueError
              end
  | VDate _ => Raise TypeError
  | VList _ => Raise TypeError
  | VDoc _ => Raise TypeError
  end.

(** The body of the [try] block of [trade_realized_pnl] (main.py 49-58). *)
Definition trade_realized_pnl_try (trade : doc) : outcome (option spec_float) :=
  if negb (truthy (get trade "closed")) then Ret None
  else
    entry ← py_float (get trade "entry_price");
    exitp ← py_float (get trade "exit_price");
    qty ← py_float (get trade "quantity");
    fees ← py_float (get_or trade "fees" (VFloat F.zero));
    let side := get trade "side" in
    let pnl := if eq_str side "long"
               then F.mul (F.sub exitp entry) qty
               else F.mul (F.sub entry exitp) qty in
    let pnl := F.sub pnl fees in
    Ret (Some pnl).

(** [trade_realized_pnl] (main.py 46-60). *)
Definition trade_realized_pnl (trade : doc) : outcome (option spec_float) :=
  try_except (trade_realized_pnl_try trade) None.
End Pnl.

(** ** Dates *)

Module Date.
(** [date(1970, 1, 1).toordinal()] *)
Definition epoch_ordinal : Z := 719163.
(** [date.max.toordinal()] *)
Definition max_ordinal : Z := 3652059.

(** The naive UTC [datetime] a driver hands out for a stored BSON date. *)
Definition of_millis (ms : Z) : datetime :=
  {| ordinal := epoch_ordinal + ms / 86400000;
     usec := (ms mod 86400000) * 1000;
     utcoffset := None |}.

(** The BSON date a [datetime] is stored or compared as: an aware value
    is moved to UTC, and microseconds are truncated to milliseconds. *)
Definition to_millis (d : datetime) : Z :=
  ((ordinal d - epoch_ordinal) * 86400000000 + usec d - default 0 (utcoffset d)) / 1000.

(** [d - timedelta(days=n)] *)
Definition minus_days (d : datetime) (n : Z) : outcome datetime :=
  let o := ordinal d - n in
  if (1 <=? o) && (o <=? max_ordinal)
  then Ret {| ordinal := o; usec := usec d; utcoffset := utcoffset d |}
  else Raise OverflowError.

Definition days_before_month (month : Z) : Z :=
  match month with
  | 1 => 0 | 2 => 31 | 3 => 59 | 4 => 90 | 5 => 120 | 6 => 151
  | 7 => 181 | 8 => 212 | 9 => 243 | 10 => 273 | 11 => 304 | 12 => 334
  | _ => -1
  end.

Definition days_in_month (month : Z) : Z :=
  match month with
  | 1 => 31 | 2 => 28 | 3 => 31 | 4 => 30 | 5 => 31 | 6 => 30
  | 7 => 31 | 8 => 31 | 9 => 30 | 10 => 31 | 11 => 30 | 12 => 31
  | _ => -1
  end.

(** [_ord2ymd]: ordinal to (year, month, day), with January 1 of year 1
    as day 1. *)
Definition ord2ymd (n : Z) : Z * Z * Z :=
  let n := n - 1 in
  let n400 := n / 146097 in
  let n := n mod 146097 in
  let year := n400 * 400 + 1 in
  let n100 := n / 36524 in
  let n := n mod 36524 in
  let n4 := n / 1461 in
  let n := n mod 1461 in
  let n1 := n / 365 in
  let n := n mod 365 in
  let year := year + n100 * 100 + n4 * 4 + n1 in
  if (n1 =? 4) || (n100 =? 4) then (year - 1, 12, 31)
  else
    let leapyear := (n1 =? 3) && (negb (n4 =? 24) || (n100 =? 3)) in
    let month := Z.shiftr (n + 50) 5 in
    let preceding := days_before_month month
                     + (if (2 <? month) && leapyear then 1 else 0) in
    if n <? preceding then
      let month := month - 1 in
      let preceding := preceding - (days_in_month month
                       + (if (month =? 2) && leapyear then 1 else 0)) in
      (year, month, n - preceding + 1)
    else (year, month, n - preceding + 1).

(** The last [width] decimal digits of [n], zero padded. *)
Fixpoint digits (width : nat) (n : Z) : string :=
  match width with
  | O => ""
  | S w => digits w (n / 10)
           +:+ String (Ascii.ascii_of_nat (48 + Z.to_nat (n mod 10))) ""
  end.

(** [d.date()]: a [date] is given by its ordinal. *)
Definition date (d : datetime) : Z := ordinal d.

(** [isoformat()] of a [date]: ["%04d-%02d-%02d"]. *)
Definition isoformat (day : Z) : string :=
  let '(y, m, dd) := ord2ymd day in
  digits 4 y +:+ "-" +:+ digits 2 m +:+ "-" +:+ digits 2 dd.

(** [d.strftime("%Y-%m")]; the year is written with four digits, as
    it is for the years from 1000 on. *)
Definition year_month (d : datetime) : string :=
  let '(y, m, _) := ord2ymd (ordinal d) in
  digits 4 y +:+ "-" +:+ digits 2 m.
End Date.

(** ** The trade collection *)

(** Modelled from the spec: the storage collaborator ([database.py] and
    the collection behind [db.trade] are not part of the sources).  It
    returns all trade records matching a set of equality and range
    filters, optionally sorted by a named field ascending.  A collection
    is the list of its documents in stored order; a filter compares a
    field as a whole (an array is not searched for a matching element),
    and a range of dates holds stored dates only. *)
Module Store.
(** The filter shapes the handlers build. *)
Inductive cond :=
  | EqStr (s : string)                 (* {field: "s"} *)
  | EqBool (b : bool)                  (* {field: True} *)
  | NeNull                             (* {field: {"$ne": None}} *)
  | DateRange (gte lte : option Z).    (* {field: {"$gte": d1, "$lte": d2}} *)

Definition query := list (string * cond).

Definition holds (c : cond) (field : option value) : bool :=
  match c, field with
  | EqStr s, Some (VStr s') => String.eqb s' s
  | EqBool b, Some (VBool b') => Bool.eqb b' b
  | NeNull, Some VNone => false
  | NeNull, Some _ => true
  | DateRange gte lte, Some (VDate ms) =>
      match gte with Some lo => lo <=? ms | None => true end
      && match lte with Some hi => ms <=? hi | None => true end
  | _, _ => false
  end.

Definition matches (q : query) (d : doc) : bool :=
  forallb (fun kc => holds (snd kc) (d !! fst kc)) q.

(** Modelled from the spec: [list(db.trade.find(q))], the records that
    match every filter of [q], in stored order. *)
Definition find (q : query) (coll : list doc) : list doc :=
  List.filter (matches q) coll.

(** The position of a number on the number line, scaled by [2^1074] so
    that every binary64 value is an integer. *)
Definition float_key (f : spec_float) : list Z :=
  match f with
  | S754_nan => [0]
  | S754_infinity true => [1]
  | S754_zero _ => [2; 0]
  | S754_finite s m e => [2; (if s then -1 else 1) * Z.shiftl (Z.pos m) (e + 1074)]
  | S754_infinity false => [3]
  end.

Fixpoint str_key (s : string) : list Z :=
  match s with
  | EmptyString => []
  | String a s' => Z.of_nat (Ascii.nat_of_ascii a) :: str_key s'
  end.

(** The sort key of a field: the rank of its type in the comparison
    order of stored values (null and missing first, then numbers,
    strings, documents, arrays, booleans, dates), then the value.
    Documents and arrays are not compared among themselves. *)
Definition sort_key (field : option value) : list Z :=
  match field with
  | None | Some VNone => [1]
  | Some (VInt n) => 2 :: [2; n * 2 ^ 1074]
  | Some (VFloat f) => 2 :: float_key f
  | Some (VStr s) => 3 :: str_key s
  | Some (VDoc _) => [4]
  | Some (VList _) => [5]
  | Some (VBool b) => [8; if b then 1 else 0]
  | Some (VDate ms) => [9; ms]
  end.

Fixpoint lex_le (a b : list Z) : bool :=
  match a, b with
  | [], _ => true
  | _ :: _, [] => false
  | x :: a', y :: b' => (x <? y) || ((x =? y) && lex_le a' b')
  end.

Definition field_le (k : string) (d1 d2 : doc) : Prop :=
  lex_le (sort_key (d1 !! k)) (sort_key (d2 !! k)) = true.

#[global] Instance field_le_dec k d1 d2 : Decision (field_le k d1 d2).
Proof. unfold field_le. apply _. Defined.

(** Modelled from the spec: [cursor.sort(k, 1)], the records in
    ascending order of field [k]. *)
Definition sort_asc (k : string) (l : list doc) : list doc :=
  merge_sort (field_le k) l.
End Store.

(** ** Python containers used by the handlers *)

(** [for x in l: body], threading the loop's variables as a state. *)
Fixpoint for_each {A S} (body : S -> A -> outcome S) (l : list A) (s : S) : outcome S :=
  match l with
  | [] => Ret s
  | x :: l' => s' ← body s x; for_each body l' s'
  end.

(** [sum(l)] on floats: the additions are made from left to right,
    starting from zero (the summation of CPython up to version 3.11;
    later versions also carry a correction term for the rounding
    errors). *)
Definition py_sum (l : list spec_float) : spec_float := fold_left F.add l F.zero.

(** [len(l)] as an operand of [/]: the length converted to a float.
    Lengths are below [2^53], so the conversion is exact and [a / b] on
    two lengths is the correctly rounded quotient Python computes. *)
Definition len {A} (l : list A) : spec_float := F.of_Z (Z.of_nat (length l)).

(** A [dict] whose keys are arbitrary hashable values, in insertion order. *)
Module Dict.
Definition t := list (value * spec_float).

Definition hashable (v : value) : bool :=
  match v with
  | VList _ | VDoc _ => false
  | _ => true
  end.

(** The number a numeric key denotes; [True] is 1 and [False] is 0. *)
Definition num_key (v : value) : option (list Z) :=
  match v with
  | VBool b => Some [2; (if b then 1 else 0) * 2 ^ 1074]
  | VInt n => Some [2; n * 2 ^ 1074]
  | VFloat f => Some (Store.float_key f)
  | _ => None
  end.

(** Equality of two keys: numbers compare by value (a NaN equals
    nothing), other values within their own type. *)
Definition key_eqb (a b : value) : bool :=
  match a, b with
  | VNone, VNone => true
  | VStr s1, VStr s2 => String.eqb s1 s2
  | VDate m1, VDate m2 => m1 =? m2
  | _, _ =>
      match num_key a, num_key b with
      | Some ka, Some kb => bool_decide (ka = kb) && negb (bool_decide (ka = [0]))
      | _, _ => false
      end
  end.

Fixpoint find (d : t) (k : value) : option spec_float :=
  match d with
  | [] => None
  | (k', x) :: d' => if key_eqb k' k then Some x else find d' k
  end.

Fixpoint set (d : t) (k : value) (x : spec_float) : t :=
  match d with
  | [] => [(k, x)]
  | (k', y) :: d' => if key_eqb k' k then (k', x) :: d' else (k', y) :: set d' k x
  end.

(** [d[k] = d.get(k, 0.0) + x] *)
Definition add (d : t) (k : value) (x : spec_float) : outcome t :=
  if hashable k then Ret (set d k (F.add (default F.zero (find d k)) x))
  else Raise TypeError.
End Dict.

(** [m[k] = m.get(k, 0.0) + x] on a [dict] with string keys. *)
Definition bucket_add (m : gmap string spec_float) (k : string) (x : spec_float)
  : gmap string spec_float :=
  <[k := F.add (default F.zero (m !! k)) x]> m.

(** [if s:] on an [Optional[str]] argument. *)
Definition given (s : option string) : bool :=
  match s with
  | Some s => negb (String.eqb s "")
  | None => false
  end.

(** ** The analytics handlers *)

Record summary := mk_summary {
  total_trades : nat;
  closed_trades : nat;
  win_rate : spec_float;
  net_pnl : spec_float;
  avg_win : spec_float;
  avg_loss : spec_float;
  profit_factor : spec_float;
  expectancy : spec_float;
  by_symbol : Dict.t;
  by_strategy : Dict.t;
  monthly : gmap string spec_float
}.

Record calendar := mk_calendar {
  cal_start : string;
  cal_end : string;
  daily : gmap string spec_float
}.

Record point := mk_point {
  date : string;
  equity : spec_float
}.

(** The lists [pnls], [wins] and [losses] of [analytics_summary]. *)
Record tally := mk_tally {
  pnls : list spec_float;
  wins : list spec_float;
  losses : list spec_float
}.

Section Analytics.
Context {B : Builtins}.

(** [datetime.fromisoformat(s)] *)
Definition parse_date (s : string) : outcome datetime :=
  match fromisoformat s with
  | Some d => Ret d
  | None => Raise ValueError
  end.

(** [closed_trades = [t for t in trades if t.get("closed")]] (main.py 241) *)
Definition closed_of (trades : list doc) : list doc :=
  List.filter (fun t => truthy (get t "closed")) trades.

(** The body of the loop at main.py 247-255. *)
Definition tally_step (acc : tally) (t : doc) : outcome tally :=
  pnl ← trade_realized_pnl t;
  match pnl with
  | None => Ret acc
  | Some pnl =>
      if F.ge pnl F.zero
      then Ret (mk_tally (pnls acc ++ [pnl]) (wins acc ++ [pnl]) (losses acc))
      else Ret (mk_tally (pnls acc ++ [pnl]) (wins acc) (losses acc ++ [pnl]))
  end.

(** The body of the loop at main.py 266-271. *)
Definition by_symbol_step (acc : Dict.t) (t : doc) : outcome Dict.t :=
  pnl ← trade_realized_pnl t;
  match pnl with
  | None => Ret acc
  | Some pnl => Dict.add acc (get t "symbol") pnl
  end.

(** The body of the loop at main.py 275-280. *)
Definition by_strategy_step (acc : Dict.t) (t : doc) : outcome Dict.t :=
  pnl ← trade_realized_pnl t;
  match pnl with
  | None => Ret acc
  | Some pnl => Dict.add acc (py_or (get t "strategy") (VStr "Unlabeled")) pnl
  end.

(** The body of the loop at main.py 284-293. *)
Definition monthly_step (acc : gmap string spec_float) (t : doc)
  : outcome (gmap string spec_float) :=
  pnl ← trade_realized_pnl t;
  match pnl with
  | None => Ret acc
  | Some pnl =>
      match py_or (get t "exit_date") (get t "entry_date") with
      | VStr s => d ← parse_date s; Ret (bucket_add acc (Date.year_month d) pnl)
      | VDate ms => Ret (bucket_add acc (Date.year_month (Date.of_millis ms)) pnl)
      | _ => Ret acc
      end
  end.

(** [net_pnl] (main.py 257) *)
Definition net_pnl_of (pnls : list spec_float) : spec_float :=
  match pnls with
  | [] => F.zero
  | _ => py_sum pnls
  end.

(** [win_rate] (main.py 258) *)
Definition win_rate_of (wins pnls : list spec_float) : outcome spec_float :=
  match pnls with
  | [] => Ret F.zero
  | _ => r ← F.div (len wins) (len pnls); Ret (F.mul r F.hundred)
  end.

(** [avg_win] and [avg_loss] (main.py 259-260) *)
Definition avg_of (l : list spec_float) : outcome spec_float :=
  match l with
  | [] => Ret F.zero
  | _ => F.div (py_sum l) (len l)
  end.

(** [profit_factor] (main.py 261) *)
Definition profit_factor_of (wins losses : list spec_float) : outcome spec_float :=
  match wins, losses with
  | _ :: _, _ :: _ => F.div (py_sum wins) (F.abs (py_sum losses))
  | _ :: _, [] => Ret F.inf
  | [], _ => Ret F.zero
  end.

(** [expectancy] (main.py 262) *)
Definition expectancy_of (win_rate avg_win avg_loss : spec_float) : outcome spec_float :=
  w ← F.div win_rate F.hundred;
  w' ← F.div win_rate F.hundred;
  Ret (F.add (F.mul w avg_win) (F.mul (F.sub F.one w') avg_loss)).

(** main.py 240-307: the report computed from the fetched [trades]. *)
Definition summarize (trades : list doc) : outcome summary :=
  let total := length trades in
  let closed := closed_of trades in
  acc ← for_each tally_step closed (mk_tally [] [] []);
  let net_pnl := net_pnl_of (pnls acc) in
  win_rate ← win_rate_of (wins acc) (pnls acc);
  avg_win ← avg_of (wins acc);
  avg_loss ← avg_of (losses acc);
  profit_factor ← profit_factor_of (wins acc) (losses acc);
  expectancy ← expectancy_of win_rate avg_win avg_loss;
  by_symbol ← for_each by_symbol_step closed [];
  by_strategy ← for_each by_strategy_step closed [];
  monthly ← for_each monthly_step closed ∅;
  Ret {| total_trades := total;
         closed_trades := length closed;
         win_rate := win_rate;
         net_pnl := net_pnl;
         avg_win := avg_win;
         avg_loss := avg_loss;
         profit_factor := profit_factor;
         expectancy := expectancy;
         by_symbol := by_symbol;
         by_strategy := by_strategy;
         monthly := monthly |}.

(** The bounds of the [entry_date] filter (main.py 230-236). *)
Definition entry_date_filter (start end_ : option string) : outcome Store.query :=
  if given start || given end_ then
    gte ← (if given start then d ← parse_date (default "" start); Ret (Some (Date.to_millis d))
           else Ret None);
    lte ← (if given end_ then d ← parse_date (default "" end_); Ret (Some (Date.to_millis d))
           else Ret None);
    Ret [("entry_date", Store.DateRange gte lte)]
  else Ret [].

(** [analytics_summary] (main.py 214-307); [db] is [None] when the
    database is not configured. *)
Definition analytics_summary (db : option (list doc))
    (symbol strategy start end_ : option string) : outcome summary :=
  match db with
  | None => Raise (HTTPException 500)
  | Some coll =>
      let q := if given symbol then [("symbol", Store.EqStr (upper (default "" symbol)))] else [] in
      let q := if given strategy then q ++ [("strategy", Store.EqStr (default "" strategy))] else q in
      dates ← entry_date_filter start end_;
      summarize (Store.find (q ++ dates) coll)
  end.

(** The use of [exit_date] in the calendar and equity loops:
    [if isinstance(d, str): d = datetime.fromisoformat(d)], then
    [d.date()]. *)
Definition exit_datetime (d : value) : outcome datetime :=
  match d with
  | VStr s => parse_date s
  | VDate ms => Ret (Date.of_millis ms)
  | _ => Raise AttributeError
  end.

(** The body of the loop at main.py 336-344. *)
Definition by_day_step (acc : gmap string spec_float) (t : doc)
  : outcome (gmap string spec_float) :=
  pnl ← trade_realized_pnl t;
  match pnl with
  | None => Ret acc
  | Some pnl =>
      d ← exit_datetime (get t "exit_date");
      Ret (bucket_add acc (Date.isoformat (Date.date d)) pnl)
  end.

(** The date window of [analytics_calendar] (main.py 319-326). *)
Definition window (now : datetime) (start end_ : option string)
  : outcome (datetime * datetime) :=
  end_dt ← (if given end_ then parse_date (default "" end_) else Ret now);
  start_dt ← (if given start then parse_date (default "" start)
              else Date.minus_days end_dt 180);
  Ret (start_dt, end_dt).

(** [analytics_calendar] (main.py 310-346); [now] is the value of
    [datetime.now(timezone.utc)]. *)
Definition analytics_calendar (db : option (list doc)) (now : datetime)
    (start end_ : option string) : outcome calendar :=
  match db with
  | None => Raise (HTTPException 500)
  | Some coll =>
      w ← window now start end_;
      let '(start_dt, end_dt) := w in
      let q := [("closed", Store.EqBool true);
                ("exit_date", Store.DateRange (Some (Date.to_millis start_dt))
                                              (Some (Date.to_millis end_dt)))] in
      let trades := Store.find q coll in
      by_day ← for_each by_day_step trades ∅;
      Ret {| cal_start := Date.isoformat (Date.date start_dt);
             cal_end := Date.isoformat (Date.date end_dt);
             daily := by_day |}
  end.

(** The body of the loop at main.py 358-366; the state is [(curve, cum)]. *)
Definition equity_step (acc : list point * spec_float) (t : doc)
  : outcome (list point * spec_float) :=
  pnl ← trade_realized_pnl t;
  match pnl with
  | None => Ret acc
  | Some pnl =>
      let cum := F.add (snd acc) pnl in
      d ← exit_datetime (get t "exit_date");
      Ret (fst acc ++ [mk_point (Date.isoformat (Date.date d)) cum], cum)
  end.

(** The trades the equity curve is built from (main.py 354). *)
Definition equity_trades (coll : list doc) : list doc :=
  Store.sort_asc "exit_date"
    (Store.find [("closed", Store.EqBool true); ("exit_price", Store.NeNull)] coll).

(** [analytics_equity_curve] (main.py 349-368). *)
Definition analytics_equity_curve (db : option (list doc)) : outcome (list point) :=
  match db with
  | None => Raise (HTTPException 500)
  | Some coll =>
      acc ← for_each equity_step (equity_trades coll) ([], F.zero);
      Ret (fst acc)
  end.
End Analytics.

(** ** Builtins and documents of the examples *)

Module Examples.
Definition upper_ascii (a : Ascii.ascii) : Ascii.ascii :=
  let n := Ascii.nat_of_ascii a in
  if ((97 <=? n) && (n <=? 122))%nat then Ascii.ascii_of_nat (n - 32) else a.

Fixpoint upper_string (s : string) : string :=
  match s with
  | EmptyString => EmptyString
  | String a s' => String (upper_ascii a) (upper_string s')
  end.

(** The documents below hold numbers and stored dates only, so no
    string is ever handed to [float] or [fromisoformat]; this instance
    answers [ValueError] to both and upper-cases ASCII letters. *)
Definition no_parse : Builtins :=
  {| float_of_str := fun _ => None;
     fromisoformat := fun _ => None;
     upper := upper_string |}.

(** A trade as [create_trade] stores it. *)
Definition trade (symbol side : string) (entry_date : Z) (exit_date : value)
    (entry_price exit_price quantity fees : spec_float) (closed : bool) : doc :=
  list_to_map
    [("symbol", VStr symbol); ("side", VStr side); ("strategy", VNone);
     ("entry_date", VDate entry_date); ("exit_date", exit_date);
     ("entry_price", VFloat entry_price); ("exit_price", VFloat exit_price);
     ("quantity", VFloat quantity); ("fees", VFloat fees);
     ("tags", VList []); ("closed", VBool closed)].

(** The binary64 value nearest to [n / 10]. *)
Definition tenths (n : Z) : spec_float := SFdiv F.prec F.emax (F.of_Z n) (F.of_Z 10).

(** Midnight UTC of 2024-03-01, 2024-03-14, 2024-03-15, 2024-03-16 and
    2024-04-01 in milliseconds since the epoch, and noon of 2024-03-15. *)
Definition mar01 : Z := 1709251200000.
Definition mar14 : Z := 1710374400000.
Definition mar15 : Z := 1710460800000.
Definition mar16 : Z := 1710547200000.
Definition apr01 : Z := 1711929600000.
Definition mar15_noon : Z := 1710504000000.

(** [datetime.now(timezone.utc)] at midnight of 2024-04-01. *)
Definition now : datetime := {| ordinal := 738977; usec := 0; utcoffset := Some 0 |}.

Definition long_trade : doc :=
  trade "AAPL" "long" mar01 (VDate mar15_noon)
        (F.of_Z 100) (F.of_Z 110) (F.of_Z 10) (F.of_Z 5) true.
Definition short_trade : doc :=
  trade "AAPL" "short" mar01 (VDate mar15_noon)
        (F.of_Z 100) (F.of_Z 90) (F.of_Z 5) (F.of_Z 2) true.
(** A long trade closed at a loss of 50. *)
Definition losing_trade : doc :=
  trade "MSFT" "long" mar01 (VDate mar16)
        (F.of_Z 100) (F.of_Z 90) (F.of_Z 5) (F.of_Z 0) true.
(** A trade that is still open: no exit date, no exit price. *)
Definition open_trade : doc :=
  <["exit_price" := VNone]>
    (trade "MSFT" "long" mar01 VNone (F.of_Z 100) (F.of_Z 100) (F.of_Z 5) (F.of_Z 0) false).
(** A long trade closed on 2024-03-15 with a PnL of 42. *)
Definition march_trade : doc :=
  trade "AAPL" "long" mar01 (VDate mar15_noon)
        (F.of_Z 100) (F.of_Z 142) (F.of_Z 1) (F.of_Z 0) true.
(** A trade marked closed with an exit price and no exit date, as
    [POST /api/trades] stores it when [exit_date] is omitted. *)
Definition undated_trade : doc :=
  trade "AAPL" "long" mar01 VNone
        (F.of_Z 100) (F.of_Z 110) (F.of_Z 10) (F.of_Z 5) true.

(** Three long trades bought at 1 and sold at 2, of 0.3, 0.2 and 0.1
    units, stored in this order and closed in the reverse order. *)
Definition units (tenth : Z) (exit_date : Z) : doc :=
  trade "BTCUSDT" "long" mar01 (VDate exit_date)
        (F.of_Z 1) (F.of_Z 2) (tenths tenth) (F.of_Z 0) true.
Definition fractional_trades : list doc :=
  [units 3 mar16; units 2 mar15; units 1 mar14].
End Examples.

(** ** Notions used in the statements *)

(** A weak form of validity, kept by every rounded result: the exponent
    of a finite value is at least the minimal exponent of binary64. *)
Definition bounded_below (x : spec_float) : Prop :=
  match x with
  | S754_finite _ _ e => -1074 ≤ e
  | _ => True
  end.

(** The values for which [x >= 0] is false: a NaN or a negative number. *)
Definition below_zero (x : spec_float) : Prop :=
  match x with
  | S754_nan => True
  | S754_infinity s => s = true
  | S754_finite s _ e => s = true ∧ -1074 ≤ e
  | S754_zero _ => False
  end.

(** The floats stored in the numeric fields of a trade are binary64 values. *)
Definition floats_valid (t : doc) : bool :=
  forallb (fun k => match t !! k with
                    | Some (VFloat f) => F.valid f
                    | _ => true
                    end)
          ["entry_price"; "exit_price"; "quantity"; "fees"].

(** A number that is neither an infinity nor a NaN. *)
Definition finite (x : spec_float) : bool :=
  match x with
  | S754_zero _ | S754_finite _ _ _ => true
  | _ => false
  end.

(** The equity of the last point of a curve, 0 for the empty curve. *)
Definition final_equity (pts : list point) : spec_float :=
  match last pts with
  | Some p => equity p
  | None => F.zero
  end.

(** [closed] holds the boolean [True]. *)
Definition closed_is_true (t : doc) : bool :=
  match get t "closed" with
  | VBool true => true
  | _ => false
  end.

(** [closed] is a boolean or is absent. *)
Definition closed_is_flag (t : doc) : bool :=
  match t !! "closed" with
  | Some (VBool _) | None => true
  | _ => false
  end.

(** The lists a tally holds once the PnLs [ps] have been appended to it. *)
Definition tally_of (acc : tally) (ps : list spec_float) : tally :=
  mk_tally (pnls acc ++ ps)
           (wins acc ++ List.filter (fun p => F.ge p F.zero) ps)
           (losses acc ++ List.filter (fun p => negb (F.ge p F.zero)) ps).

(** A summary after one more trade has been counted, and counted as
    closed when [closed] is set. *)
Definition counted (closed : bool) (s : summary) : summary :=
  {| total_trades := S (total_trades s);
     closed_trades := (if closed then 1 else 0) + closed_trades s;
     win_rate := win_rate s;
     net_pnl := net_pnl s;
     avg_win := avg_win s;
     avg_loss := avg_loss s;
     profit_factor := profit_factor s;
     expectancy := expectancy s;
     by_symbol := by_symbol s;
     by_strategy := by_strategy s;
     monthly := monthly s |}.

(** The trades the calendar selects: [closed] is [True] and [exit_date]
    is a stored date between [lo] and [hi], in milliseconds. *)
Definition closed_in_window (lo hi : Z) (t : doc) : bool :=
  closed_is_true t
  && match get t "exit_date" with
     | VDate ms => (lo <=? ms) && (ms <=? hi)
     | _ => false
     end.

(** The UTC calendar day of a stored [exit_date], as ["YYYY-MM-DD"]. *)
Definition exit_day (t : doc) : option string :=
  match get t "exit_date" with
  | VDate ms => Some (Date.isoformat (Date.date (Date.of_millis ms)))
  | _ => None
  end.

Section Notions.
Context {B : Builtins}.

(** [float] maps a string to a binary64 value when it accepts it. *)
Definition builtins_valid : Prop :=
  ∀ s f, float_of_str s = Some f → F.valid f = true.

(** The realized PnL of a trade, [None] when it is not computable. *)
Definition pnl_of (t : doc) : option spec_float :=
  match trade_realized_pnl t with
  | Ret r => r
  | Raise _ => None
  end.

(** The computable PnLs of a sequence of trades, in order, with the
    wins ([pnl >= 0]) and the losses among them. *)
Definition computable_pnls (trades : list doc) : list spec_float := omap pnl_of trades.
Definition wins_of (trades : list doc) : list spec_float :=
  List.filter (fun p => F.ge p F.zero) (computable_pnls trades).
Definition losses_of (trades : list doc) : list spec_float :=
  List.filter (fun p => negb (F.ge p F.zero)) (computable_pnls trades).

(** The numeric fields of a trade, where they are numbers, are finite,
    and the quantity is not zero. *)
Definition fields_finite (t : doc) : bool :=
  match py_float (get t "entry_price"), py_float (get t "exit_price"),
        py_float (get t "quantity"), py_float (get_or t "fees" (VFloat F.zero)) with
  | Ret entry, Ret exitp, Ret qty, Ret fees =>
      finite entry && finite exitp && finite qty && negb (F.is_zero qty) && finite fees
  | _, _, _, _ => true
  end.

(** The [exit_date] of a trade is a stored date or a string that
    [datetime.fromisoformat] accepts. *)
Definition exit_date_ok (t : doc) : bool :=
  match get t "exit_date" with
  | VDate _ => true
  | VStr s => bool_decide (is_Some (fromisoformat s))
  | _ => false
  end.

(** The fields the grouping loops of the summary read: [symbol] and
    [strategy] are hashable, and a date given as a string is accepted
    by [datetime.fromisoformat]. *)
Definition groupable (t : doc) : bool :=
  Dict.hashable (get t "symbol")
  && Dict.hashable (get t "strategy")
  && match py_or (get t "exit_date") (get t "entry_date") with
     | VStr s => bool_decide (is_Some (fromisoformat s))
     | _ => true
     end.

(** The computable PnLs of the trades closed on [day], in order. *)
Definition day_pnls (day : string) (trades : list doc) : list spec_float :=
  omap (fun t => if decide (exit_day t = Some day) then pnl_of t else None) trades.

(** The days, as ordinals, of the computable trades with a stored
    [exit_date], in order. *)
Definition exit_ordinals (trades : list doc) : list Z :=
  omap (fun t => match pnl_of t, get t "exit_date" with
                 | Some _, VDate ms => Some (Date.date (Date.of_millis ms))
                 | _, _ => None
                 end) trades.
End Notions.

(** ** Notions used for the grouping loops and the curve *)

Section GroupNotions.
Context {B : Builtins}.

(** The computable PnLs of the trades whose [symbol] is the string
    [sym], in order. *)
Definition symbol_pnls (sym : string) (trades : list doc) : list spec_float :=
  omap (fun t => if eq_str (get t "symbol") sym then pnl_of t else None) trades.

(** The label a trade is grouped under by strategy (main.py 279). *)
Definition strategy_label (t : doc) : value :=
  py_or (get t "strategy") (VStr "Unlabeled").

(** The computable PnLs of the trades labelled [label], in order. *)
Definition label_pnls (label : string) (trades : list doc) : list spec_float :=
  omap (fun t => if eq_str (strategy_label t) label then pnl_of t else None) trades.



(** The day of the [exit_date] of a trade, as the curve prints it. *)
Definition exit_date_key (t : doc) : option string :=
  match get t "exit_date" with
  | VDate ms => Some (Date.isoformat (Date.date (Date.of_millis ms)))
  | VStr s => (fun d => Date.isoformat (Date.date d)) <$> fromisoformat s
  | _ => None
  end.

(** The days of the computable trades, in order. *)
Definition curve_days (trades : list doc) : list string :=
  omap (fun t => match pnl_of t with
                 | Some _ => exit_date_key t
                 | None => None
                 end) trades.
End GroupNotions.

(** The sums [cum + p1], [cum + p1 + p2], ... of a list of PnLs. *)
Fixpoint running_sums (cum : spec_float) (ps : list spec_float) : list spec_float :=
  match ps with
  | [] => []
  | p :: ps' => F.add cum p :: running_sums (F.add cum p) ps'
  end.

(** * Properties *)

Section PnlFacts.
Context {B : Builtins}.

Lemma pnl_closed_false (t : doc) :
  truthy (get t "closed") = false → trade_realized_pnl t = Ret None.
Proof.
  intros H. unfold trade_realized_pnl, trade_realized_pnl_try.
  rewrite H. reflexivity.
Qed.

Lemma pnl_value (t : doc) (entry exitp qty fees : spec_float) :
  truthy (get t "closed") = true →
  py_float (get t "entry_price") = Ret entry →
  py_float (get t "exit_price") = Ret exitp →
  py_float (get t "quantity") = Ret qty →
  py_float (get_or t "fees" (VFloat F.zero)) = Ret fees →
  trade_realized_pnl t =
    Ret (Some (F.sub (if eq_str (get t "side") "long"
                      then F.mul (F.sub exitp entry) qty
                      else F.mul (F.sub entry exitp) qty) fees)).
Proof.
  intros Hc He Hx Hq Hf. unfold trade_realized_pnl, trade_realized_pnl_try.
  rewrite Hc, He, Hx, Hq, Hf. reflexivity.
Qed.

Lemma eq_str_false (v : value) (s : string) : v ≠ VStr s → eq_str v s = false.
Proof.
  destruct v; simpl; try reflexivity. intros Hne.
  destruct (String.eqb_spec s0 s) as [->|]; [contradiction | reflexivity].
Qed.

Lemma pnl_returns (t : doc) : ∃ r, trade_realized_pnl t = Ret r.
Proof.
  unfold trade_realized_pnl, try_except.
  destruct (trade_realized_pnl_try t) as [r|e]; eauto.
Qed.

Lemma pnl_coercion_fails (t : doc) (k : string) (e : exn) :
  k ∈ ["entry_price"; "exit_price"; "quantity"] →
  py_float (get t k) = Raise e →
  trade_realized_pnl t = Ret None.
Proof.
  intros Hk He. unfold trade_realized_pnl, trade_realized_pnl_try.
  destruct (truthy (get t "closed")); cbn [negb]; [|reflexivity].
  destruct (py_float (get t "entry_price")) as [entry|] eqn:H1; [|reflexivity].
  destruct (py_float (get t "exit_price")) as [exitp|] eqn:H2; [|reflexivity].
  destruct (py_float (get t "quantity")) as [qty|] eqn:H3; [|reflexivity].
  repeat (apply elem_of_cons in Hk as [->|Hk]); [congruence..|].
  by apply elem_of_nil in Hk.
Qed.
End PnlFacts.

Section PnlClaims.
Context {B : Builtins}.

(** C1: for a closed trade whose [entry_price], [exit_price],
    [quantity] and [fees] (0.0 when absent) are numbers,
    [trade_realized_pnl] returns [(exit - entry) * quantity - fees]
    when [side] is ["long"] and [(entry - exit) * quantity - fees] when
    [side] is ["short"]; the long trade 100 -> 110, quantity 10, fees 5
    yields 95 and the short trade 100 -> 90, quantity 5, fees 2
    yields 48. *)
Theorem realized_pnl_formula :
  (∀ (t : doc) (entry exitp qty fees : spec_float),
     truthy (get t "closed") = true →
     py_float (get t "entry_price") = Ret entry →
     py_float (get t "exit_price") = Ret exitp →
     py_float (get t "quantity") = Ret qty →
     py_float (get_or t "fees" (VFloat F.zero)) = Ret fees →
     (get t "side" = VStr "long" →
      trade_realized_pnl t = Ret (Some (F.sub (F.mul (F.sub exitp entry) qty) fees)))
     ∧ (get t "side" = VStr "short" →
        trade_realized_pnl t = Ret (Some (F.sub (F.mul (F.sub entry exitp) qty) fees))))
  ∧ trade_realized_pnl Examples.long_trade = Ret (Some (F.of_Z 95))
  ∧ trade_realized_pnl Examples.short_trade = Ret (Some (F.of_Z 48)).
Proof.
  split; [|split; vm_compute; reflexivity].
  intros t entry exitp qty fees Hc He Hx Hq Hf.
  pose proof (pnl_value t entry exitp qty fees Hc He Hx Hq Hf) as Hv.
  split; intros Hs; rewrite Hs in Hv; exact Hv.
Qed.

(** C4: [trade_realized_pnl] never raises: it returns a number or
    [None]; it returns [None] when [closed] is false, whatever the other
    fields hold, and when one of [entry_price], [exit_price], [quantity]
    is missing or is not accepted by [float]. *)
Theorem realized_pnl_never_raises (t : doc) :
  (∃ r, trade_realized_pnl t = Ret r)
  ∧ (truthy (get t "closed") = false → trade_realized_pnl t = Ret None)
  ∧ (∀ k, k ∈ ["entry_price"; "exit_price"; "quantity"] →
          (t !! k = None ∨ ∃ e, py_float (get t k) = Raise e) →
          trade_realized_pnl t = Ret None).
Proof.
  split; [apply pnl_returns|]. split; [apply pnl_closed_false|].
  intros k Hk [Hmiss|[e He]].
  - apply (pnl_coercion_fails t k TypeError Hk).
    unfold get. rewrite Hmiss. reflexivity.
  - exact (pnl_coercion_fails t k e Hk He).
Qed.

(** C10: for a closed trade whose four numeric fields are numbers, the
    short-side formula [(entry - exit) * quantity - fees] is applied
    whenever [side] is anything but the string ["long"], a missing or
    [None] side included. *)
Theorem realized_pnl_side_not_long (t : doc) (entry exitp qty fees : spec_float) :
  truthy (get t "closed") = true →
  py_float (get t "entry_price") = Ret entry →
  py_float (get t "exit_price") = Ret exitp →
  py_float (get t "quantity") = Ret qty →
  py_float (get_or t "fees" (VFloat F.zero)) = Ret fees →
  get t "side" ≠ VStr "long" →
  trade_realized_pnl t = Ret (Some (F.sub (F.mul (F.sub entry exitp) qty) fees)).
Proof.
  intros Hc He Hx Hq Hf Hs.
  rewrite (pnl_value t entry exitp qty fees Hc He Hx Hq Hf).
  rewrite (eq_str_false _ _ Hs). reflexivity.
Qed.
End PnlClaims.

Lemma realized_pnl_formula_witness :
  trade_realized_pnl (B := Examples.no_parse) Examples.long_trade
  = Ret (Some (F.sub (F.mul (F.sub (F.of_Z 110) (F.of_Z 100)) (F.of_Z 10)) (F.of_Z 5))).
Proof.
  exact (proj1 (proj1 (realized_pnl_formula (B := Examples.no_parse))
                 Examples.long_trade (F.of_Z 100) (F.of_Z 110) (F.of_Z 10) (F.of_Z 5)
                 eq_refl eq_refl eq_refl eq_refl eq_refl) eq_refl).
Defined.

Lemma realized_pnl_never_raises_witness :
  trade_realized_pnl (B := Examples.no_parse)
    (delete "exit_price" Examples.long_trade) = Ret None.
Proof.
  apply (proj2 (proj2 (realized_pnl_never_raises (B := Examples.no_parse)
                         (delete "exit_price" Examples.long_trade))) "exit_price").
  - apply elem_of_cons; right; apply elem_of_cons; left; reflexivity.
  - left. reflexivity.
Defined.

(** A closed trade whose [side] field is absent. *)
Lemma realized_pnl_side_not_long_witness :
  trade_realized_pnl (B := Examples.no_parse) (delete "side" Examples.long_trade)
  = Ret (Some (F.sub (F.mul (F.sub (F.of_Z 100) (F.of_Z 110)) (F.of_Z 10)) (F.of_Z 5))).
Proof.
  apply realized_pnl_side_not_long; try reflexivity. discriminate.
Defined.

Section FloatFacts.
Lemma digits2_pos_size (p : positive) : digits2_pos p = Pos.size p.
Proof. induction p; simpl; congruence. Qed.

Lemma Zdigits2_log2 (p : positive) : Zdigits2 (Z.pos p) = Z.log2 (Z.pos p) + 1.
Proof.
  simpl. rewrite digits2_pos_size. destruct p; simpl; rewrite ?Pos.add_1_r; try reflexivity.
  all: rewrite Pos2Z.inj_succ; lia.
Qed.

Lemma shr_1_m (r : shr_record) : 0 ≤ shr_m r → shr_m (shr_1 r) = Z.shiftr (shr_m r) 1.
Proof.
  destruct r as [m rb sb]. simpl. intros Hm.
  destruct m as [|[p|p|]|p]; try reflexivity; lia.
Qed.

Lemma iter_shr_1_m (p : positive) : ∀ r,
  0 ≤ shr_m r → shr_m (SpecFloat.iter_pos shr_1 p r) = Z.shiftr (shr_m r) (Z.pos p).
Proof.
  induction p as [p IH|p IH|]; intros r Hr; simpl.
  - assert (H1 : 0 ≤ shr_m (shr_1 r)) by (rewrite shr_1_m by done; apply Z.shiftr_nonneg; done).
    assert (H2 : 0 ≤ shr_m (SpecFloat.iter_pos shr_1 p (shr_1 r)))
      by (rewrite IH by done; apply Z.shiftr_nonneg; done).
    rewrite IH, IH, shr_1_m by done.
    rewrite !Z.shiftr_shiftr by lia. f_equal. lia.
  - assert (H2 : 0 ≤ shr_m (SpecFloat.iter_pos shr_1 p r))
      by (rewrite IH by done; apply Z.shiftr_nonneg; done).
    rewrite IH, IH by done. rewrite Z.shiftr_shiftr by lia. f_equal. lia.
  - apply shr_1_m; done.
Qed.

(** What the first step of rounding guarantees, whatever it is given. *)
Lemma shr_fexp_bounds (m e : Z) (l : location) :
  0 ≤ m →
  let r := shr_fexp F.prec F.emax m e l in
  -1074 ≤ r.2 ∧ 0 ≤ shr_m r.1 ∧ (-1074 ≤ e → 1 ≤ m → 1 ≤ shr_m r.1).
Proof.
  intros Hm. unfold shr_fexp, shr, fexp, emin, F.prec, F.emax.
  assert (Hrec : shr_m (shr_record_of_loc m l) = m) by (destruct l as [|[]]; reflexivity).
  pose proof (Z.max_spec (Zdigits2 m + e - 53) (3 - 1024 - 53)) as Hmax.
  destruct (Z.max (Zdigits2 m + e - 53) (3 - 1024 - 53) - e) as [|n|n] eqn:Hn; simpl.
  - rewrite Hrec. split; [lia|]. split; [lia|]. intros; lia.
  - rewrite iter_shr_1_m by (rewrite Hrec; done). rewrite Hrec.
    split; [lia|]. split; [apply Z.shiftr_nonneg; done|].
    intros He H1. destruct m as [|p|p]; try lia.
    rewrite Zdigits2_log2 in Hn.
    assert (Hlog : Z.pos n ≤ Z.log2 (Z.pos p)) by lia.
    destruct (Z.eq_dec (Z.shiftr (Z.pos p) (Z.pos n)) 0) as [H0|H0].
    + apply Z.shiftr_eq_0_iff in H0 as [H0|[_ H0]]; lia.
    + pose proof (Z.shiftr_nonneg (Z.pos p) (Z.pos n)) as [_ Hnn]. specialize (Hnn ltac:(lia)). lia.
  - rewrite Hrec. split; [lia|]. split; [lia|]. intros; lia.
Qed.

Lemma round_nearest_even_ge (m : Z) (l : location) : m ≤ round_nearest_even m l.
Proof. destruct l as [|[]]; simpl; try lia. destruct (Z.even m); lia. Qed.

Lemma round_aux_bounded (s : bool) (m e : Z) (l : location) :
  0 ≤ m → bounded_below (binary_round_aux F.prec F.emax s m e l).
Proof.
  intros Hm. unfold binary_round_aux.
  pose proof (shr_fexp_bounds m e l Hm) as (He1 & Hm1 & _).
  destruct (shr_fexp F.prec F.emax m e l) as [r1 e1]. simpl in *.
  set (m2 := round_nearest_even (shr_m r1) (loc_of_shr_record r1)).
  assert (Hm2 : 0 ≤ m2) by (pose proof (round_nearest_even_ge (shr_m r1) (loc_of_shr_record r1)); lia).
  pose proof (shr_fexp_bounds m2 e1 loc_Exact Hm2) as (He2 & Hm3 & _).
  destruct (shr_fexp F.prec F.emax m2 e1 loc_Exact) as [r2 e2]. simpl in *.
  destruct (shr_m r2); simpl; try done.
  destruct (e2 <=? F.emax - F.prec); simpl; done.
Qed.

(** Rounding a non-zero mantissa whose exponent is in range never
    gives a zero: the result keeps the sign and is finite or infinite. *)
Lemma round_aux_nonzero (s : bool) (p : positive) (e : Z) (l : location) :
  -1074 ≤ e →
  binary_round_aux F.prec F.emax s (Z.pos p) e l = S754_infinity s
  ∨ ∃ m' e', binary_round_aux F.prec F.emax s (Z.pos p) e l = S754_finite s m' e'
             ∧ -1074 ≤ e'.
Proof.
  intros He. unfold binary_round_aux.
  pose proof (shr_fexp_bounds (Z.pos p) e l ltac:(lia)) as (He1 & Hm1 & Hp1).
  destruct (shr_fexp F.prec F.emax (Z.pos p) e l) as [r1 e1]. simpl in *.
  specialize (Hp1 He ltac:(lia)).
  set (m2 := round_nearest_even (shr_m r1) (loc_of_shr_record r1)).
  assert (Hm2 : 1 ≤ m2) by (pose proof (round_nearest_even_ge (shr_m r1) (loc_of_shr_record r1)); lia).
  pose proof (shr_fexp_bounds m2 e1 loc_Exact ltac:(lia)) as (He2 & Hm3 & Hp3).
  destruct (shr_fexp F.prec F.emax m2 e1 loc_Exact) as [r2 e2]. simpl in *.
  specialize (Hp3 He1 Hm2).
  destruct (shr_m r2) as [|m'|m']; try lia.
  destruct (e2 <=? F.emax - F.prec); [right|left]; eauto.
Qed.

Lemma round_bounded (s : bool) (p : positive) (e : Z) :
  bounded_below (binary_round F.prec F.emax s p e).
Proof.
  unfold binary_round. destruct (shl_align _ _ _) as [mz ez].
  apply round_aux_bounded. lia.
Qed.

Lemma round_nonzero (s : bool) (p : positive) (e : Z) :
  -1074 ≤ e →
  binary_round F.prec F.emax s p e = S754_infinity s
  ∨ ∃ m' e', binary_round F.prec F.emax s p e = S754_finite s m' e' ∧ -1074 ≤ e'.
Proof.
  intros He. unfold binary_round, shl_align.
  pose proof (Z.max_spec (Z.pos (digits2_pos p) + e - F.prec) (3 - F.emax - F.prec)) as Hmax.
  unfold fexp, emin.
  destruct (Z.max (Z.pos (digits2_pos p) + e - F.prec) (3 - F.emax - F.prec) - e) eqn:Hd;
    apply round_aux_nonzero; unfold F.prec, F.emax in *; lia.
Qed.

Lemma normalize_bounded (m e : Z) (sz : bool) :
  bounded_below (binary_normalize F.prec F.emax m e sz).
Proof. destruct m; simpl; [done | apply round_bounded..]. Qed.

Lemma valid_bounded (x : spec_float) : F.valid x = true → bounded_below x.
Proof.
  destruct x as [| | |s m e]; simpl; try done.
  unfold bounded, canonical_mantissa, fexp, emin, F.prec, F.emax.
  intros [H1 H2]%andb_prop. apply Z.eqb_eq in H1.
  pose proof (Z.max_spec (Z.pos (digits2_pos m) + e - 53) (3 - 1024 - 53)). lia.
Qed.

Lemma mul_bounded (x y : spec_float) : bounded_below (F.mul x y).
Proof.
  destruct x as [sx|sx| |sx mx ex], y as [sy|sy| |sy my ey]; simpl; try done.
  apply round_aux_bounded. lia.
Qed.

Lemma sub_bounded (x y : spec_float) :
  bounded_below x → bounded_below y → bounded_below (F.sub x y).
Proof.
  destruct x as [sx|sx| |sx mx ex], y as [sy|sy| |sy my ey]; simpl; try done.
  - by destruct sx, sy.
  - by destruct sx, sy.
  - intros _ _. apply normalize_bounded.
Qed.

Lemma add_below_zero (x y : spec_float) :
  below_zero x → below_zero y → below_zero (F.add x y).
Proof.
  destruct x as [sx|sx| |sx mx ex], y as [sy|sy| |sy my ey]; simpl; try done.
  - by intros -> ->.
  - intros [-> Hx] [-> Hy]. unfold cond_Zopp. simpl Z.add.
    destruct (round_nonzero true (fst (shl_align mx ex (Z.min ex ey))
                                   + fst (shl_align my ey (Z.min ex ey)))
                (Z.min ex ey) ltac:(lia)) as [H|(m' & e' & H & He')].
    all: change (- Z.pos ?a + - Z.pos ?b) with (Z.neg (a + b));
      unfold binary_normalize; rewrite H; simpl; done.
Qed.

Lemma not_ge_zero (x : spec_float) :
  bounded_below x → F.ge x F.zero = false → below_zero x.
Proof.
  destruct x as [sx|sx| |sx mx ex]; unfold F.ge, SFleb; simpl; try done.
  - by destruct sx.
  - by destruct sx.
Qed.

Lemma round_aux_not_nan (s : bool) (m e : Z) (l : location) :
  0 ≤ m → binary_round_aux F.prec F.emax s m e l ≠ S754_nan.
Proof.
  intros Hm. unfold binary_round_aux.
  pose proof (shr_fexp_bounds m e l Hm) as (_ & Hm1 & _).
  destruct (shr_fexp F.prec F.emax m e l) as [r1 e1]. simpl in *.
  set (m2 := round_nearest_even (shr_m r1) (loc_of_shr_record r1)).
  assert (Hm2 : 0 ≤ m2) by (pose proof (round_nearest_even_ge (shr_m r1) (loc_of_shr_record r1)); lia).
  pose proof (shr_fexp_bounds m2 e1 loc_Exact Hm2) as (_ & Hm3 & _).
  destruct (shr_fexp F.prec F.emax m2 e1 loc_Exact) as [r2 e2]. simpl in *.
  destruct (shr_m r2); [done| |lia].
  by destruct (e2 <=? F.emax - F.prec).
Qed.

Lemma normalize_not_nan (m e : Z) (sz : bool) :
  binary_normalize F.prec F.emax m e sz ≠ S754_nan.
Proof.
  destruct m; simpl; [done|..]; unfold binary_round;
    destruct (shl_align _ _ _) as [mz ez]; apply round_aux_not_nan; lia.
Qed.

Lemma sub_not_nan (x y : spec_float) :
  x ≠ S754_nan → finite y = true → F.sub x y ≠ S754_nan.
Proof.
  destruct x as [sx|sx| |sx mx ex], y as [sy|sy| |sy my ey]; simpl; try done.
  - by destruct sx, sy.
  - intros _ _. apply normalize_not_nan.
Qed.

Lemma mul_not_nan (x y : spec_float) :
  x ≠ S754_nan → finite y = true → F.is_zero y = false → F.mul x y ≠ S754_nan.
Proof.
  destruct x as [sx|sx| |sx mx ex], y as [sy|sy| |sy my ey]; simpl; try done.
  intros _ _ _. apply round_aux_not_nan. lia.
Qed.

Lemma finite_not_nan (x : spec_float) : finite x = true → x ≠ S754_nan.
Proof. by destruct x. Qed.

Lemma not_ge_is_lt (x : spec_float) :
  x ≠ S754_nan → negb (F.ge x F.zero) = F.lt x F.zero.
Proof. destruct x as [[]|[]| |[] m e]; simpl; done. Qed.

Lemma sum_below_zero (x : spec_float) (l : list spec_float) :
  Forall below_zero (x :: l) → below_zero (py_sum (x :: l)).
Proof.
  intros H. apply Forall_cons in H as [Hx Hl]. unfold py_sum.
  change (fold_left F.add (x :: l) F.zero) with (fold_left F.add l (F.add F.zero x)).
  assert (H0 : below_zero (F.add F.zero x)) by (destruct x as [| | |]; unfold F.add, F.zero; simpl in *; done).
  revert H0. generalize (F.add F.zero x). clear Hx.
  induction Hl as [|y l Hy Hl IH]; intros a Ha; simpl; [exact Ha|].
  apply IH, add_below_zero; assumption.
Qed.

Lemma below_zero_abs (x : spec_float) : below_zero x → F.is_zero (F.abs x) = false.
Proof. destruct x; simpl; done. Qed.

Lemma len_nonzero {A} (x : A) (l : list A) : F.is_zero (len (x :: l)) = false.
Proof.
  unfold len, F.of_Z. simpl length. rewrite Nat2Z.inj_succ.
  destruct (Z.succ (Z.of_nat (length l))) as [|p|p] eqn:Hp; try lia.
  simpl. destruct (round_nonzero false p 0 ltac:(lia)) as [H|(m' & e' & H & _)];
    rewrite H; reflexivity.
Qed.
End FloatFacts.

Section SummaryFacts.
Context {B : Builtins}.

Lemma pnl_of_ret (t : doc) : trade_realized_pnl t = Ret (pnl_of t).
Proof. unfold pnl_of. destruct (pnl_returns t) as [r ->]. reflexivity. Qed.

Lemma pnl_of_not_closed (t : doc) : truthy (get t "closed") = false → pnl_of t = None.
Proof. intros H. unfold pnl_of. rewrite (pnl_closed_false t H). reflexivity. Qed.

Lemma py_float_bounded (v : value) (f : spec_float) :
  builtins_valid →
  match v with VFloat x => F.valid x = true | _ => True end →
  py_float v = Ret f → bounded_below f.
Proof.
  intros HB Hv. destruct v as [|b|n|x|s| | |]; simpl; try discriminate.
  - intros [= <-]. destruct b; [apply normalize_bounded | done].
  - destruct (F.is_inf (F.of_Z n)); [discriminate|].
    intros [= <-]. apply normalize_bounded.
  - intros [= <-]. apply valid_bounded, Hv.
  - destruct (float_of_str s) as [x|] eqn:Hs; [|discriminate].
    intros [= <-]. apply valid_bounded, (HB s x Hs).
Qed.

Lemma pnl_bounded (t : doc) (p : spec_float) :
  builtins_valid → floats_valid t = true → pnl_of t = Some p → bounded_below p.
Proof.
  intros HB Hv. unfold pnl_of, trade_realized_pnl, trade_realized_pnl_try.
  destruct (truthy (get t "closed")); simpl; [|discriminate].
  destruct (py_float (get t "entry_price")) as [entry|]; simpl; [|discriminate].
  destruct (py_float (get t "exit_price")) as [exitp|]; simpl; [|discriminate].
  destruct (py_float (get t "quantity")) as [qty|]; simpl; [|discriminate].
  destruct (py_float (get_or t "fees" (VFloat F.zero))) as [fees|] eqn:Hf; simpl; [|discriminate].
  intros [= <-]. apply sub_bounded.
  - destruct (eq_str (get t "side") "long"); apply mul_bounded.
  - apply (py_float_bounded _ _ HB) in Hf; [done|].
    unfold floats_valid in Hv. simpl in Hv.
    apply andb_prop in Hv as [_ Hv]. apply andb_prop in Hv as [_ Hv].
    apply andb_prop in Hv as [_ Hv]. apply andb_prop in Hv as [Hv _].
    unfold get_or. destruct (t !! "fees") as [[]|]; simpl; done.
Qed.

Lemma pnl_not_nan (t : doc) (p : spec_float) :
  fields_finite t = true → pnl_of t = Some p → p ≠ S754_nan.
Proof.
  unfold fields_finite, pnl_of, trade_realized_pnl, trade_realized_pnl_try.
  destruct (truthy (get t "closed")); cbn [negb]; [|discriminate].
  destruct (py_float (get t "entry_price")) as [entry|]; [|discriminate].
  destruct (py_float (get t "exit_price")) as [exitp|]; [|discriminate].
  destruct (py_float (get t "quantity")) as [qty|]; [|discriminate].
  destruct (py_float (get_or t "fees" (VFloat F.zero))) as [fees|]; [|discriminate].
  cbn [mbind outcome_bind try_except].
  intros H. apply andb_prop in H as [H Hf]. apply andb_prop in H as [H Hq0].
  apply andb_prop in H as [H Hq]. apply andb_prop in H as [He Hx].
  apply negb_true_iff in Hq0.
  intros [= <-]. apply sub_not_nan; [|exact Hf].
  destruct (eq_str (get t "side") "long");
    (apply mul_not_nan; [apply sub_not_nan; [by apply finite_not_nan|] | |]); done.
Qed.

Lemma pnls_not_nan (trades : list doc) :
  Forall (λ t, fields_finite t = true) trades →
  Forall (λ p, p ≠ S754_nan) (computable_pnls trades).
Proof.
  unfold computable_pnls. induction 1 as [|t l Ht Hl IH]; csimpl; [constructor|].
  destruct (pnl_of t) as [p|] eqn:Hp; [|exact IH].
  constructor; [exact (pnl_not_nan t p Ht Hp) | exact IH].
Qed.

Lemma tally_step_eq (acc : tally) (t : doc) :
  tally_step acc t = Ret (tally_of acc (option_list (pnl_of t))).
Proof.
  unfold tally_step. rewrite pnl_of_ret. simpl.
  destruct (pnl_of t) as [p|]; simpl.
  - unfold tally_of. simpl. destruct (F.ge p F.zero); simpl; rewrite ?app_nil_r; reflexivity.
  - unfold tally_of. simpl. rewrite !app_nil_r. by destruct acc.
Qed.

Lemma tally_of_app (acc : tally) (ps qs : list spec_float) :
  tally_of (tally_of acc ps) qs = tally_of acc (ps ++ qs).
Proof.
  unfold tally_of. simpl. rewrite !List.filter_app, <- !app_assoc. reflexivity.
Qed.

Lemma for_each_tally (l : list doc) : ∀ acc,
  for_each tally_step l acc = Ret (tally_of acc (omap pnl_of l)).
Proof.
  induction l as [|t l IH]; intros acc; cbn [for_each].
  - unfold tally_of. simpl. rewrite !app_nil_r. by destruct acc.
  - rewrite tally_step_eq. simpl. rewrite IH, tally_of_app.
    by destruct (pnl_of t).
Qed.

Lemma omap_closed_of (trades : list doc) :
  omap pnl_of (closed_of trades) = omap pnl_of trades.
Proof.
  unfold closed_of. induction trades as [|t l IH]; csimpl; [done|].
  destruct (truthy (get t "closed")) eqn:Hc; csimpl; rewrite IH; [done|].
  by rewrite (pnl_of_not_closed t Hc).
Qed.

Lemma tally_summary (trades : list doc) :
  for_each tally_step (closed_of trades) (mk_tally [] [] [])
  = Ret (mk_tally (computable_pnls trades) (wins_of trades) (losses_of trades)).
Proof. rewrite for_each_tally, omap_closed_of. reflexivity. Qed.

(** The statistics of a returned summary. *)
Lemma summarize_stats (trades : list doc) (s : summary) :
  summarize trades = Ret s →
  total_trades s = length trades
  ∧ closed_trades s = length (closed_of trades)
  ∧ net_pnl s = net_pnl_of (computable_pnls trades)
  ∧ win_rate_of (wins_of trades) (computable_pnls trades) = Ret (win_rate s)
  ∧ avg_of (wins_of trades) = Ret (avg_win s)
  ∧ avg_of (losses_of trades) = Ret (avg_loss s)
  ∧ profit_factor_of (wins_of trades) (losses_of trades) = Ret (profit_factor s)
  ∧ expectancy_of (win_rate s) (avg_win s) (avg_loss s) = Ret (expectancy s)
  ∧ for_each by_symbol_step (closed_of trades) [] = Ret (by_symbol s)
  ∧ for_each by_strategy_step (closed_of trades) [] = Ret (by_strategy s)
  ∧ for_each monthly_step (closed_of trades) ∅ = Ret (monthly s).
Proof.
  intros H. unfold summarize in H. rewrite tally_summary in H.
  cbn [mbind outcome_bind pnls wins losses] in H.
  destruct (win_rate_of (wins_of trades) (computable_pnls trades)) as [wr|]; [|discriminate].
  destruct (avg_of (wins_of trades)) as [aw|]; [|discriminate].
  destruct (avg_of (losses_of trades)) as [al|]; [|discriminate].
  destruct (profit_factor_of (wins_of trades) (losses_of trades)) as [pf|]; [|discriminate].
  destruct (expectancy_of wr aw al) as [ex|] eqn:Hex; [|discriminate].
  destruct (for_each by_symbol_step (closed_of trades) []) as [bs|]; [|discriminate].
  destruct (for_each by_strategy_step (closed_of trades) []) as [bt|]; [|discriminate].
  destruct (for_each monthly_step (closed_of trades) ∅) as [mo|]; [|discriminate].
  injection H as <-.
  cbn [total_trades closed_trades win_rate net_pnl avg_win avg_loss
       profit_factor expectancy by_symbol by_strategy monthly].
  repeat match goal with |- _ ∧ _ => split end; first [exact Hex | reflexivity].
Qed.

Lemma div_returns (x y : spec_float) :
  F.is_zero y = false → F.div x y = Ret (SFdiv F.prec F.emax x y).
Proof. intros H. unfold F.div. rewrite H. reflexivity. Qed.

Lemma win_rate_returns (ws ps : list spec_float) : ∃ r, win_rate_of ws ps = Ret r.
Proof.
  destruct ps as [|p ps]; [by eexists|]. unfold win_rate_of.
  rewrite div_returns by apply len_nonzero. by eexists.
Qed.

Lemma avg_returns (l : list spec_float) : ∃ r, avg_of l = Ret r.
Proof.
  destruct l as [|p l]; [by eexists|]. unfold avg_of.
  rewrite div_returns by apply len_nonzero. by eexists.
Qed.

Lemma expectancy_returns (wr aw al : spec_float) : ∃ r, expectancy_of wr aw al = Ret r.
Proof.
  unfold expectancy_of. rewrite !div_returns by reflexivity. by eexists.
Qed.

Lemma losses_below_zero (trades : list doc) :
  builtins_valid →
  Forall (λ t, floats_valid t = true) trades →
  Forall below_zero (losses_of trades).
Proof.
  intros HB Hv. unfold losses_of, computable_pnls.
  induction Hv as [|t l Ht Hl IH]; csimpl; [constructor|].
  destruct (pnl_of t) as [p|] eqn:Hp; [|exact IH]. simpl.
  destruct (F.ge p F.zero) eqn:Hge; simpl; [exact IH|].
  constructor; [|exact IH].
  apply not_ge_zero; [|exact Hge]. exact (pnl_bounded t p HB Ht Hp).
Qed.

(** The division of [profit_factor] is defined: the sum of the losses
    is never a zero. *)
Lemma profit_factor_returns (trades : list doc) :
  builtins_valid →
  Forall (λ t, floats_valid t = true) trades →
  profit_factor_of (wins_of trades) (losses_of trades)
  = Ret match wins_of trades, losses_of trades with
        | _ :: _, _ :: _ =>
            SFdiv F.prec F.emax (py_sum (wins_of trades)) (F.abs (py_sum (losses_of trades)))
        | _ :: _, [] => F.inf
        | [], _ => F.zero
        end.
Proof.
  intros HB Hv. pose proof (losses_below_zero trades HB Hv) as Hl.
  unfold profit_factor_of.
  destruct (wins_of trades) as [|w ws]; [reflexivity|].
  destruct (losses_of trades) as [|x xs]; [reflexivity|].
  apply div_returns, below_zero_abs, sum_below_zero, Hl.
Qed.

Lemma Forall_closed_of (P : doc → Prop) (l : list doc) :
  Forall P l → Forall P (closed_of l).
Proof.
  unfold closed_of. induction 1 as [|t l Ht Hl IH]; simpl; [constructor|].
  destruct (truthy (get t "closed")); [constructor|]; assumption.
Qed.

Lemma by_symbol_step_eq (acc : Dict.t) (t : doc) :
  by_symbol_step acc t
  = match pnl_of t with
    | None => Ret acc
    | Some p => Dict.add acc (get t "symbol") p
    end.
Proof. unfold by_symbol_step. rewrite pnl_of_ret. reflexivity. Qed.

Lemma by_strategy_step_eq (acc : Dict.t) (t : doc) :
  by_strategy_step acc t
  = match pnl_of t with
    | None => Ret acc
    | Some p => Dict.add acc (py_or (get t "strategy") (VStr "Unlabeled")) p
    end.
Proof. unfold by_strategy_step. rewrite pnl_of_ret. reflexivity. Qed.

Lemma monthly_step_eq (acc : gmap string spec_float) (t : doc) :
  monthly_step acc t
  = match pnl_of t with
    | None => Ret acc
    | Some p =>
        match py_or (get t "exit_date") (get t "entry_date") with
        | VStr s => d ← parse_date s; Ret (bucket_add acc (Date.year_month d) p)
        | VDate ms => Ret (bucket_add acc (Date.year_month (Date.of_millis ms)) p)
        | _ => Ret acc
        end
    end.
Proof. unfold monthly_step. rewrite pnl_of_ret. reflexivity. Qed.

Lemma by_symbol_returns (l : list doc) : ∀ acc,
  Forall (λ t, groupable t = true) l → ∃ r, for_each by_symbol_step l acc = Ret r.
Proof.
  induction l as [|t l IH]; intros acc Hl; cbn [for_each]; [by eexists|].
  apply Forall_cons in Hl as [Ht Hl]. rewrite by_symbol_step_eq.
  destruct (pnl_of t) as [p|]; cbn [mbind outcome_bind]; [|by apply IH].
  unfold Dict.add. unfold groupable in Ht.
  apply andb_prop in Ht as [Ht _]. apply andb_prop in Ht as [-> _].
  cbn [mbind outcome_bind]. by apply IH.
Qed.

Lemma by_strategy_returns (l : list doc) : ∀ acc,
  Forall (λ t, groupable t = true) l → ∃ r, for_each by_strategy_step l acc = Ret r.
Proof.
  induction l as [|t l IH]; intros acc Hl; cbn [for_each]; [by eexists|].
  apply Forall_cons in Hl as [Ht Hl]. rewrite by_strategy_step_eq.
  destruct (pnl_of t) as [p|]; cbn [mbind outcome_bind]; [|by apply IH].
  unfold Dict.add. unfold groupable in Ht.
  apply andb_prop in Ht as [Ht _]. apply andb_prop in Ht as [_ Ht].
  assert (Hh : Dict.hashable (py_or (get t "strategy") (VStr "Unlabeled")) = true)
    by (unfold py_or; destruct (truthy (get t "strategy")); [exact Ht | reflexivity]).
  rewrite Hh. cbn [mbind outcome_bind]. by apply IH.
Qed.

Lemma monthly_returns (l : list doc) : ∀ acc,
  Forall (λ t, groupable t = true) l → ∃ r, for_each monthly_step l acc = Ret r.
Proof.
  induction l as [|t l IH]; intros acc Hl; cbn [for_each]; [by eexists|].
  apply Forall_cons in Hl as [Ht Hl]. rewrite monthly_step_eq.
  destruct (pnl_of t) as [p|]; cbn [mbind outcome_bind]; [|by apply IH].
  unfold groupable in Ht. apply andb_prop in Ht as [_ Ht].
  destruct (py_or (get t "exit_date") (get t "entry_date")) as [| | | |s| | |];
    cbn [mbind outcome_bind]; try by apply IH.
  apply bool_decide_eq_true in Ht as [d Hd]. unfold parse_date. rewrite Hd.
  cbn [mbind outcome_bind]. by apply IH.
Qed.

(** The summary is produced for every sequence of validated records. *)
Lemma summarize_returns (trades : list doc) :
  builtins_valid →
  Forall (λ t, floats_valid t = true) trades →
  Forall (λ t, groupable t = true) trades →
  ∃ s, summarize trades = Ret s.
Proof.
  intros HB Hv Hg. unfold summarize. rewrite tally_summary.
  cbn [mbind outcome_bind pnls wins losses].
  destruct (win_rate_returns (wins_of trades) (computable_pnls trades)) as [wr ->].
  destruct (avg_returns (wins_of trades)) as [aw ->].
  destruct (avg_returns (losses_of trades)) as [al ->].
  rewrite (profit_factor_returns trades HB Hv).
  cbn [mbind outcome_bind].
  destruct (expectancy_returns wr aw al) as [ex ->].
  apply Forall_closed_of in Hg.
  destruct (by_symbol_returns (closed_of trades) [] Hg) as [bs ->].
  destruct (by_strategy_returns (closed_of trades) [] Hg) as [bt ->].
  destruct (monthly_returns (closed_of trades) ∅ Hg) as [mo ->].
  cbn [mbind outcome_bind]. by eexists.
Qed.
End SummaryFacts.

Section SummaryClaims.
Context {B : Builtins}.

Lemma closed_of_app (l1 l2 : list doc) : closed_of (l1 ++ l2) = closed_of l1 ++ closed_of l2.
Proof. apply List.filter_app. Qed.

Lemma closed_of_cons (t : doc) (l : list doc) :
  closed_of (t :: l) = (if truthy (get t "closed") then [t] else []) ++ closed_of l.
Proof. unfold closed_of. simpl. by destruct (truthy (get t "closed")). Qed.

Lemma for_each_app {A S} (step : S → A → outcome S) (l1 l2 : list A) : ∀ acc,
  for_each step (l1 ++ l2) acc = (acc' ← for_each step l1 acc; for_each step l2 acc').
Proof.
  induction l1 as [|x l1 IH]; intros acc; cbn [for_each app mbind outcome_bind]; [done|].
  destruct (step acc x) as [acc'|e]; cbn [mbind outcome_bind]; [apply IH | done].
Qed.

(** A trade on which the loop body changes nothing can be taken out of
    the sequence the loop runs over. *)
Lemma for_each_skip {S} (step : S → doc → outcome S) (t : doc) (l1 l2 : list doc) (acc : S) :
  (∀ a, step a t = Ret a) →
  for_each step (closed_of (l1 ++ t :: l2)) acc = for_each step (closed_of (l1 ++ l2)) acc.
Proof.
  intros Hskip. rewrite !closed_of_app, closed_of_cons, !for_each_app.
  destruct (for_each step (closed_of l1) acc) as [a|e]; cbn [mbind outcome_bind]; [|done].
  destruct (truthy (get t "closed")); cbn [app for_each]; [|done].
  rewrite Hskip. reflexivity.
Qed.

Lemma length_closed_of_flags (trades : list doc) :
  Forall (λ t, closed_is_flag t = true) trades →
  length (closed_of trades) = length (List.filter closed_is_true trades).
Proof.
  unfold closed_of. induction 1 as [|t l Ht Hl IH]; simpl; [done|].
  assert (Heq : truthy (get t "closed") = closed_is_true t).
  { unfold closed_is_flag in Ht. unfold closed_is_true, get.
    destruct (t !! "closed") as [[|[]| | | | | |]|]; simpl in *; done. }
  rewrite Heq. destruct (closed_is_true t); simpl; congruence.
Qed.

(** C2: [profit_factor] is [sum(wins) / abs(sum(losses))] when the
    computable PnLs hold a win ([pnl >= 0]) and a loss (a PnL that is
    not a win: the PnLs with [pnl < 0] when the numeric fields are
    finite, as then no PnL is a NaN), is [+infinity] when they hold
    wins and no loss, and is 0 when they hold no win; the division is
    always defined, every summary that is returned carries this value,
    and a summary is returned for every sequence of records whose
    grouping fields are usable. *)
Theorem profit_factor_cases (trades : list doc) :
  builtins_valid →
  Forall (λ t, floats_valid t = true) trades →
  ∃ pf,
    profit_factor_of (wins_of trades) (losses_of trades) = Ret pf
    ∧ (wins_of trades ≠ [] → losses_of trades ≠ [] →
       F.div (py_sum (wins_of trades)) (F.abs (py_sum (losses_of trades))) = Ret pf)
    ∧ (wins_of trades ≠ [] → losses_of trades = [] → pf = F.inf)
    ∧ (wins_of trades = [] → pf = F.zero)
    ∧ (Forall (λ t, fields_finite t = true) trades →
       losses_of trades = List.filter (λ p, F.lt p F.zero) (computable_pnls trades))
    ∧ (∀ s, summarize trades = Ret s → profit_factor s = pf)
    ∧ (Forall (λ t, groupable t = true) trades → ∃ s, summarize trades = Ret s).
Proof.
  intros HB Hv. pose proof (profit_factor_returns trades HB Hv) as Hpf.
  eexists. split; [exact Hpf|].
  repeat match goal with |- _ ∧ _ => split end.
  - intros Hw Hl. unfold profit_factor_of in Hpf.
    destruct (wins_of trades) as [|w ws]; [done|].
    destruct (losses_of trades) as [|x xs]; [done|]. exact Hpf.
  - intros Hw ->. by destruct (wins_of trades).
  - by intros ->.
  - intros Hfin. apply pnls_not_nan in Hfin. revert Hfin. unfold losses_of.
    induction 1 as [|p ps Hp Hps IH]; simpl; [done|].
    rewrite (not_ge_is_lt p Hp), IH. reflexivity.
  - intros s Hs. apply summarize_stats in Hs as (_ & _ & _ & _ & _ & _ & Hs & _).
    rewrite Hpf in Hs. by injection Hs.
  - intros Hg. exact (summarize_returns trades HB Hv Hg).
Qed.

(** C5: summarizing the empty sequence of trades raises nothing, no
    [ZeroDivisionError] in particular, and returns [total_trades = 0],
    [win_rate = 0], [net_pnl = 0] and [profit_factor = 0]; so does the
    handler on a collection without any trade. *)
Theorem summarize_empty :
  summarize [] =
    Ret {| total_trades := 0; closed_trades := 0;
           win_rate := F.zero; net_pnl := F.zero;
           avg_win := F.zero; avg_loss := F.zero;
           profit_factor := F.zero; expectancy := F.zero;
           by_symbol := []; by_strategy := []; monthly := ∅ |}
  ∧ ∀ symbol strategy, analytics_summary (Some []) symbol strategy None None = summarize [].
Proof.
  split; [vm_compute; reflexivity|].
  intros symbol strategy. unfold analytics_summary, entry_date_filter.
  cbn [given orb mbind outcome_bind]. reflexivity.
Qed.

(** C8: a returned summary counts every input trade in [total_trades]
    and every trade whose [closed] is set in [closed_trades], computable
    or not (for boolean flags: every trade with [closed == True]); a
    trade without computable PnL never makes the summary fail and
    changes none of its statistics, only these two counts; the summary
    is returned for every sequence of records whose numeric and
    grouping fields are usable. *)
Theorem summary_counts_all_trades :
  (∀ trades s, summarize trades = Ret s →
     total_trades s = length trades
     ∧ closed_trades s = length (List.filter (λ t, truthy (get t "closed")) trades)
     ∧ (Forall (λ t, closed_is_flag t = true) trades →
        closed_trades s = length (List.filter closed_is_true trades)))
  ∧ (∀ l1 t l2, trade_realized_pnl t = Ret None →
       summarize (l1 ++ t :: l2)
       = (s ← summarize (l1 ++ l2); Ret (counted (truthy (get t "closed")) s)))
  ∧ (∀ trades, builtins_valid →
       Forall (λ t, floats_valid t = true) trades →
       Forall (λ t, groupable t = true) trades →
       ∃ s, summarize trades = Ret s).
Proof.
  split; [|split; [|exact summarize_returns]].
  - intros trades s Hs. apply summarize_stats in Hs as (Ht & Hc & _).
    split; [exact Ht|]. split; [exact Hc|].
    intros Hf. rewrite Hc. apply length_closed_of_flags, Hf.
  - intros l1 t l2 Ht.
    assert (Hp : pnl_of t = None) by (unfold pnl_of; rewrite Ht; reflexivity).
    unfold summarize.
    rewrite (for_each_skip tally_step t l1 l2)
      by (intros a; rewrite tally_step_eq, Hp; unfold tally_of; simpl;
          rewrite !app_nil_r; by destruct a).
    rewrite (for_each_skip by_symbol_step t l1 l2)
      by (intros a; rewrite by_symbol_step_eq, Hp; reflexivity).
    rewrite (for_each_skip by_strategy_step t l1 l2)
      by (intros a; rewrite by_strategy_step_eq, Hp; reflexivity).
    rewrite (for_each_skip monthly_step t l1 l2)
      by (intros a; rewrite monthly_step_eq, Hp; reflexivity).
    destruct (for_each tally_step (closed_of (l1 ++ l2)) _) as [acc|]; [|done].
    cbn [mbind outcome_bind].
    destruct (win_rate_of (wins acc) (pnls acc)) as [wr|]; [|done].
    destruct (avg_of (wins acc)) as [aw|]; [|done].
    destruct (avg_of (losses acc)) as [al|]; [|done].
    destruct (profit_factor_of (wins acc) (losses acc)) as [pf|]; [|done].
    cbn [mbind outcome_bind].
    destruct (expectancy_of wr aw al) as [ex|]; [|done].
    destruct (for_each by_symbol_step (closed_of (l1 ++ l2)) []) as [bs|]; [|done].
    destruct (for_each by_strategy_step (closed_of (l1 ++ l2)) []) as [bt|]; [|done].
    destruct (for_each monthly_step (closed_of (l1 ++ l2)) ∅) as [mo|]; [|done].
    cbn [mbind outcome_bind]. unfold counted.
    cbn [total_trades closed_trades win_rate net_pnl avg_win avg_loss
         profit_factor expectancy by_symbol by_strategy monthly].
    f_equal. f_equal.
    + rewrite !length_app. simpl. lia.
    + rewrite !closed_of_app, closed_of_cons, !length_app.
      destruct (truthy (get t "closed")); simpl; lia.
Qed.
End SummaryClaims.

Section CalendarFacts.
Context {B : Builtins}.

Lemma find_calendar (lo hi : Z) (coll : list doc) :
  Store.find [("closed", Store.EqBool true);
              ("exit_date", Store.DateRange (Some lo) (Some hi))] coll
  = List.filter (closed_in_window lo hi) coll.
Proof.
  unfold Store.find. apply List.filter_ext. intros t.
  unfold Store.matches, closed_in_window, closed_is_true, get. simpl.
  destruct (t !! "closed") as [[|[]| | | | | |]|]; simpl; try reflexivity.
  destruct (t !! "exit_date") as [[| | | | |ms| |]|]; simpl; try reflexivity.
  by rewrite andb_true_r.
Qed.

Lemma closed_in_window_day (lo hi : Z) (t : doc) :
  closed_in_window lo hi t = true → is_Some (exit_day t).
Proof.
  unfold closed_in_window, exit_day. intros [_ H]%andb_prop.
  destruct (get t "exit_date"); try discriminate. by eexists.
Qed.

Lemma by_day_step_eq (acc : gmap string spec_float) (t : doc) :
  by_day_step acc t
  = match pnl_of t with
    | None => Ret acc
    | Some p => d ← exit_datetime (get t "exit_date");
                Ret (bucket_add acc (Date.isoformat (Date.date d)) p)
    end.
Proof. unfold by_day_step. rewrite pnl_of_ret. reflexivity. Qed.

(** The loop of the calendar: each day holds the sum, from left to
    right, of the PnLs of that day, added to what the day held before. *)
Lemma by_day_loop (l : list doc) :
  Forall (λ t, is_Some (exit_day t)) l →
  ∀ acc, ∃ m, for_each by_day_step l acc = Ret m
    ∧ ∀ day, m !! day = match day_pnls day l with
                        | [] => acc !! day
                        | ps => Some (fold_left F.add ps (default F.zero (acc !! day)))
                        end.
Proof.
  induction 1 as [|t l [d0 Hd] Hl IH]; intros acc; cbn [for_each].
  - exists acc. split; [reflexivity|]. intros day. reflexivity.
  - rewrite by_day_step_eq. unfold day_pnls. csimpl. fold (day_pnls).
    destruct (pnl_of t) as [p|] eqn:Hp.
    + assert (Hdt : exit_datetime (get t "exit_date")
                    = Ret (Date.of_millis match get t "exit_date" with VDate ms => ms | _ => 0 end)
                ∧ d0 = Date.isoformat (Date.date (Date.of_millis
                         match get t "exit_date" with VDate ms => ms | _ => 0 end))).
      { unfold exit_day in Hd. destruct (get t "exit_date"); try discriminate.
        injection Hd as <-. split; reflexivity. }
      destruct Hdt as [-> Hd0]. cbn [mbind outcome_bind]. rewrite <- Hd0.
      destruct (IH (bucket_add acc d0 p)) as (m & -> & Hm).
      exists m. split; [reflexivity|]. intros day. rewrite Hm. rewrite Hd.
      unfold bucket_add. destruct (decide (Some d0 = Some day)) as [[= ->]|Hne].
      * rewrite lookup_insert_eq. cbn [default fold_left id].
        change (omap _ l) with (day_pnls day l).
        by destruct (day_pnls day l).
      * rewrite lookup_insert_ne by congruence. reflexivity.
    + cbn [mbind outcome_bind]. destruct (IH acc) as (m & -> & Hm).
      exists m. split; [reflexivity|]. intros day. rewrite Hm.
      change (omap _ l) with (day_pnls day l).
      by destruct (decide (exit_day t = Some day)).
Qed.
End CalendarFacts.

Section CalendarClaims.
Context {B : Builtins}.

Lemma calendar_returns (coll : list doc) (now : datetime) (start end_ : option string)
    (start_dt end_dt : datetime) :
  window now start end_ = Ret (start_dt, end_dt) →
  ∃ m, analytics_calendar (Some coll) now start end_
       = Ret {| cal_start := Date.isoformat (Date.date start_dt);
                cal_end := Date.isoformat (Date.date end_dt);
                daily := m |}
     ∧ ∀ day, m !! day =
         match day_pnls day (List.filter (closed_in_window (Date.to_millis start_dt)
                                                           (Date.to_millis end_dt)) coll) with
         | [] => None
         | ps => Some (py_sum ps)
         end.
Proof.
  intros Hw. unfold analytics_calendar. rewrite Hw. cbn [mbind outcome_bind].
  rewrite find_calendar.
  set (sel := List.filter _ coll).
  assert (Hsel : Forall (λ t, is_Some (exit_day t)) sel).
  { apply Forall_forall. intros t [_ Ht]%list_elem_of_In%List.filter_In.
    exact (closed_in_window_day _ _ t Ht). }
  destruct (by_day_loop sel Hsel ∅) as (m & -> & Hm).
  exists m. split; [reflexivity|]. intros day. rewrite Hm, lookup_empty. reflexivity.
Qed.

(** C7: the calendar maps each UTC calendar day of [exit_date] to the
    sum of the computable PnLs of the trades closed that day and holds
    no entry for a day without such a trade; without bounds the
    window ends now and starts 180 days earlier; the result echoes the
    dates of the resolved bounds; a window with exactly one closed
    trade, on 2024-03-15 with a PnL of 42, gives the single entry
    ["2024-03-15": 42]. *)
Theorem calendar_daily_pnl :
  (∀ coll now start end_ start_dt end_dt,
     window now start end_ = Ret (start_dt, end_dt) →
     ∃ m, analytics_calendar (Some coll) now start end_
          = Ret {| cal_start := Date.isoformat (Date.date start_dt);
                   cal_end := Date.isoformat (Date.date end_dt);
                   daily := m |}
        ∧ ∀ day, m !! day =
            match day_pnls day (List.filter (closed_in_window (Date.to_millis start_dt)
                                                              (Date.to_millis end_dt)) coll) with
            | [] => None
            | ps => Some (py_sum ps)
            end)
  ∧ (∀ now, 180 < ordinal now ≤ Date.max_ordinal →
       window now None None
       = Ret ({| ordinal := ordinal now - 180; usec := usec now; utcoffset := utcoffset now |},
              now))
  ∧ analytics_calendar
      (Some [Examples.open_trade; Examples.march_trade; Examples.undated_trade])
      Examples.now None None
    = Ret {| cal_start := "2023-10-04"; cal_end := "2024-04-01";
             daily := {[ "2024-03-15" := F.of_Z 42 ]} |}.
Proof.
  split; [exact calendar_returns|]. split; [|vm_compute; reflexivity].
  intros now Hnow. unfold window, Date.minus_days. cbn [given mbind outcome_bind].
  destruct (Z.leb_spec 1 (ordinal now - 180)); [|lia].
  destruct (Z.leb_spec (ordinal now - 180) Date.max_ordinal); [|lia].
  reflexivity.
Qed.

(** C9, amended: when the database is configured and [start] or [end]
    is a non-empty string that [datetime.fromisoformat] rejects, the
    calendar and the summary raise [ValueError] and compute no window
    (an empty string counts as an omitted bound). *)
Theorem unparsable_date_raises (coll : list doc) (now : datetime) (start end_ : option string) :
  (given start = true ∧ fromisoformat (default "" start) = None)
  ∨ (given end_ = true ∧ fromisoformat (default "" end_) = None) →
  analytics_calendar (Some coll) now start end_ = Raise ValueError
  ∧ ∀ symbol strategy,
      analytics_summary (Some coll) symbol strategy start end_ = Raise ValueError.
Proof.
  intros H. split.
  - unfold analytics_calendar, window, parse_date.
    destruct H as [[Hs Hp]|[He Hp]].
    + rewrite Hs, Hp.
      destruct (given end_); [destruct (fromisoformat (default "" end_))|]; reflexivity.
    + rewrite He, Hp. reflexivity.
  - intros symbol strategy. unfold analytics_summary, entry_date_filter, parse_date.
    destruct H as [[Hs Hp]|[He Hp]].
    + rewrite Hs, Hp. reflexivity.
    + rewrite He, Hp, orb_true_r.
      destruct (given start); [destruct (fromisoformat (default "" start))|]; reflexivity.
Qed.
End CalendarClaims.

Lemma calendar_daily_pnl_witness :
  ∃ m, analytics_calendar (B := Examples.no_parse)
         (Some [Examples.open_trade; Examples.march_trade]) Examples.now None None
       = Ret {| cal_start := "2023-10-04"; cal_end := "2024-04-01"; daily := m |}
     ∧ m !! "2024-03-15" = Some (F.of_Z 42)
     ∧ m !! "2024-03-16" = None.
Proof.
  destruct (proj1 (calendar_daily_pnl (B := Examples.no_parse))
              [Examples.open_trade; Examples.march_trade] Examples.now None None
              {| ordinal := 738797; usec := 0; utcoffset := Some 0 |} Examples.now eq_refl)
    as (m & Hm & Hday).
  exists m. split; [exact Hm|]. split; [exact (Hday "2024-03-15") | exact (Hday "2024-03-16")].
Defined.

(** C9 as stated fails on the empty string: no date can be read from
    it, and yet the calendar returns, with the default window. *)
Lemma empty_date_string_is_defaulted :
  fromisoformat (Builtins := Examples.no_parse) "" = None
  ∧ analytics_calendar (B := Examples.no_parse) (Some [Examples.march_trade])
      Examples.now (Some "") (Some "")
    = Ret {| cal_start := "2023-10-04"; cal_end := "2024-04-01";
             daily := {[ "2024-03-15" := F.of_Z 42 ]} |}.
Proof. split; [reflexivity | vm_compute; reflexivity]. Qed.

Lemma unparsable_date_raises_witness :
  analytics_calendar (B := Examples.no_parse) (Some [Examples.march_trade])
    Examples.now (Some "not-a-date") None = Raise ValueError
  ∧ ∀ symbol strategy,
      analytics_summary (B := Examples.no_parse) (Some [Examples.march_trade])
        symbol strategy (Some "not-a-date") None = Raise ValueError.
Proof.
  apply unparsable_date_raises. left. split; reflexivity.
Defined.

Section EquityFacts.
Context {B : Builtins}.

Lemma equity_step_eq (acc : list point * spec_float) (t : doc) :
  equity_step acc t
  = match pnl_of t with
    | None => Ret acc
    | Some p =>
        d ← exit_datetime (get t "exit_date");
        Ret (fst acc ++ [mk_point (Date.isoformat (Date.date d)) (F.add (snd acc) p)],
             F.add (snd acc) p)
    end.
Proof. unfold equity_step. rewrite pnl_of_ret. reflexivity. Qed.

Lemma exit_datetime_ok (t : doc) :
  exit_date_ok t = true → ∃ d, exit_datetime (get t "exit_date") = Ret d.
Proof.
  unfold exit_date_ok, exit_datetime, parse_date.
  destruct (get t "exit_date") as [| | | |s|ms| |]; try discriminate.
  - intros [d ->]%bool_decide_eq_true. by eexists.
  - by eexists.
Qed.

Lemma final_equity_snoc (pts : list point) (p : point) :
  final_equity (pts ++ [p]) = equity p.
Proof. unfold final_equity. rewrite last_snoc. reflexivity. Qed.

(** The loop of the equity curve keeps the running sum in step with
    the last point, and adds up the computable PnLs from left to right. *)
Lemma equity_loop (l : list doc) :
  Forall (λ t, pnl_of t = None ∨ exit_date_ok t = true) l →
  ∀ acc, final_equity (fst acc) = snd acc →
    ∃ acc', for_each equity_step l acc = Ret acc'
      ∧ final_equity (fst acc') = snd acc'
      ∧ snd acc' = fold_left F.add (omap pnl_of l) (snd acc)
      ∧ length (fst acc') = (length (fst acc) + length (omap pnl_of l))%nat.
Proof.
  induction 1 as [|t l Ht Hl IH]; intros acc Hacc; cbn [for_each].
  - exists acc. csimpl. repeat split; [done | lia].
  - rewrite equity_step_eq. csimpl. destruct (pnl_of t) as [p|] eqn:Hp.
    + destruct Ht as [Ht|Ht]; [discriminate|].
      destruct (exit_datetime_ok t Ht) as [d ->]. cbn [mbind outcome_bind].
      destruct (IH (fst acc ++ [mk_point (Date.isoformat (Date.date d)) (F.add (snd acc) p)],
                    F.add (snd acc) p)) as (acc' & -> & H1 & H2 & H3).
      { cbn [fst snd]. apply final_equity_snoc. }
      exists acc'. cbn [fst snd fold_left length] in *. rewrite length_app in H3.
      cbn [length] in H3. repeat split; [done..|lia].
    + cbn [mbind outcome_bind]. destruct (IH acc Hacc) as (acc' & -> & H1 & H2 & H3).
      exists acc'. repeat split; done.
Qed.

Lemma net_pnl_of_sum (ps : list spec_float) : net_pnl_of ps = py_sum ps.
Proof. by destruct ps. Qed.

Lemma equity_trades_perm (coll : list doc) :
  equity_trades coll
  ≡ₚ Store.find [("closed", Store.EqBool true); ("exit_price", Store.NeNull)] coll.
Proof. unfold equity_trades, Store.sort_asc. apply merge_sort_Permutation. Qed.

Lemma equity_trades_Forall (P : doc → Prop) (coll : list doc) :
  Forall P coll → Forall P (equity_trades coll).
Proof.
  intros H. rewrite equity_trades_perm. unfold Store.find.
  apply Forall_forall. intros t [Ht _]%list_elem_of_In%List.filter_In.
  rewrite Forall_forall in H. apply H, list_elem_of_In, Ht.
Qed.
End EquityFacts.

Section EquityClaims.
Context {B : Builtins}.

(** C3, amended: when every computable trade of the collection has an
    [exit_date] that is a stored date or a string accepted by
    [datetime.fromisoformat], the equity curve is returned, has one
    point per computable selected trade, and its final equity (0 for
    the empty curve) is the sum, from left to right, of the computable
    PnLs of the selected trades in ascending [exit_date] order: the
    [net_pnl] of the summary of the same trades in that same order.
    These PnLs are, up to their order, those of the closed trades with
    an exit price. *)
Theorem final_equity_is_net_pnl (coll : list doc) :
  Forall (λ t, pnl_of t = None ∨ exit_date_ok t = true) coll →
  ∃ pts, analytics_equity_curve (Some coll) = Ret pts
    ∧ length pts = length (computable_pnls (equity_trades coll))
    ∧ final_equity pts = net_pnl_of (computable_pnls (equity_trades coll))
    ∧ (∀ s, summarize (equity_trades coll) = Ret s → net_pnl s = final_equity pts)
    ∧ computable_pnls (equity_trades coll)
      ≡ₚ computable_pnls
           (Store.find [("closed", Store.EqBool true); ("exit_price", Store.NeNull)] coll).
Proof.
  intros H. apply equity_trades_Forall in H.
  destruct (equity_loop _ H ([], F.zero) eq_refl) as ([pts cum] & Hloop & H1 & H2 & H3).
  cbn [fst snd] in *. exists pts. unfold analytics_equity_curve. rewrite Hloop.
  split; [reflexivity|]. split; [exact H3|].
  assert (Hfin : final_equity pts = net_pnl_of (computable_pnls (equity_trades coll)))
    by (rewrite net_pnl_of_sum, H1, H2; reflexivity).
  split; [exact Hfin|]. split.
  - intros s Hs. apply summarize_stats in Hs as (_ & _ & Hs & _). by rewrite Hs, Hfin.
  - unfold computable_pnls. by rewrite equity_trades_perm.
Qed.

(** C6: on a collection that holds a trade marked closed with an exit
    price and no exit date, which [create_trade] stores as such, the
    equity curve raises [AttributeError] instead of returning ordered
    points, while the summary of the same collection is returned. *)
Theorem equity_curve_undated_trade :
  analytics_equity_curve (Some [Examples.long_trade; Examples.undated_trade])
  = Raise AttributeError
  ∧ ∃ s, analytics_summary (Some [Examples.long_trade; Examples.undated_trade])
           None None None None = Ret s
       ∧ net_pnl s = F.of_Z 190.
Proof.
  split; [vm_compute; reflexivity|].
  eexists. split; [vm_compute; reflexivity | vm_compute; reflexivity].
Qed.
End EquityClaims.

(** C3 as stated fails: for three trades of 0.3, 0.2 and 0.1 units
    stored in the reverse of their closing order, the summary adds
    0.3 + 0.2 + 0.1 = 0.6 and the curve ends on
    0.1 + 0.2 + 0.3 = 0.6000000000000001. *)
Lemma final_equity_differs_from_net_pnl :
  ∃ s pts,
    analytics_summary (B := Examples.no_parse) (Some Examples.fractional_trades)
      None None None None = Ret s
    ∧ analytics_equity_curve (B := Examples.no_parse) (Some Examples.fractional_trades) = Ret pts
    ∧ net_pnl s = S754_finite false 5404319552844595 (-53)
    ∧ final_equity pts = S754_finite false 5404319552844596 (-53)
    ∧ SFeqb (net_pnl s) (final_equity pts) = false.
Proof.
  do 2 eexists. split; [vm_compute; reflexivity|]. split; [vm_compute; reflexivity|].
  repeat split; vm_compute; reflexivity.
Qed.

Lemma final_equity_is_net_pnl_witness :
  ∃ pts, analytics_equity_curve (B := Examples.no_parse) (Some Examples.fractional_trades) = Ret pts
    ∧ length pts = 3%nat
    ∧ final_equity pts = S754_finite false 5404319552844596 (-53).
Proof.
  destruct (final_equity_is_net_pnl (B := Examples.no_parse) Examples.fractional_trades)
    as (pts & Hpts & Hlen & Hfin & _).
  - repeat constructor; right; reflexivity.
  - exists pts. split; [exact Hpts|]. split; [exact Hlen | exact Hfin].
Defined.

Section SortFacts.
Context {B : Builtins}.

Lemma lex_le_total (a : list Z) : ∀ b, Store.lex_le a b = true ∨ Store.lex_le b a = true.
Proof.
  induction a as [|x a IH]; intros [|y b]; simpl; auto.
  destruct (Z.ltb_spec x y), (Z.ltb_spec y x), (Z.eqb_spec x y), (Z.eqb_spec y x);
    simpl; auto; try lia.
Qed.

Lemma lex_le_trans (a : list Z) : ∀ b c,
  Store.lex_le a b = true → Store.lex_le b c = true → Store.lex_le a c = true.
Proof.
  induction a as [|x a IH]; intros [|y b] [|z c]; simpl; auto; try discriminate.
  destruct (Z.ltb_spec x y), (Z.ltb_spec y z), (Z.ltb_spec x z),
           (Z.eqb_spec x y), (Z.eqb_spec y z), (Z.eqb_spec x z);
    simpl; auto; try lia; try discriminate.
  apply IH.
Qed.

#[local] Instance field_le_total (k : string) : Total (Store.field_le k).
Proof. intros d1 d2. apply lex_le_total. Qed.

#[local] Instance field_le_trans (k : string) : Transitive (Store.field_le k).
Proof. intros d1 d2 d3. apply lex_le_trans. Qed.

Lemma equity_trades_sorted (coll : list doc) :
  StronglySorted (Store.field_le "exit_date") (equity_trades coll).
Proof. unfold equity_trades, Store.sort_asc. apply StronglySorted_merge_sort; apply _. Qed.

Lemma of_millis_mono (ms1 ms2 : Z) :
  ms1 ≤ ms2 → Date.date (Date.of_millis ms1) ≤ Date.date (Date.of_millis ms2).
Proof.
  intros H. unfold Date.date, Date.of_millis. simpl.
  pose proof (Z.div_le_mono ms1 ms2 86400000 ltac:(lia) H). lia.
Qed.

(** In a list sorted on [exit_date], the days of the stored dates do
    not decrease. *)
Lemma exit_ordinals_sorted (l : list doc) :
  StronglySorted (Store.field_le "exit_date") l → StronglySorted Z.le (exit_ordinals l).
Proof.
  unfold exit_ordinals.
  induction 1 as [|t l Hl IH Ht]; csimpl; [constructor|].
  destruct (pnl_of t) as [p|]; [|exact IH].
  destruct (get t "exit_date") as [| | | | |ms| |] eqn:Hd; try exact IH.
  constructor; [exact IH|].
  apply Forall_forall. intros o Ho.
  apply list_elem_of_omap in Ho as (t' & Ht' & Ho).
  rewrite Forall_forall in Ht. specialize (Ht t' Ht').
  destruct (pnl_of t'); [|discriminate].
  destruct (get t' "exit_date") as [| | | | |ms'| |] eqn:Hd'; try discriminate.
  injection Ho as <-. apply of_millis_mono.
  unfold Store.field_le, get in *.
  destruct (t !! "exit_date") as [v|]; simpl in Hd; subst; [|discriminate].
  destruct (t' !! "exit_date") as [v'|]; simpl in Hd'; subst; [|discriminate].
  simpl in Ht. destruct (Z.ltb_spec ms ms'); [lia|].
  destruct (Z.eqb_spec ms ms'); [lia|]. discriminate.
Qed.

Lemma equity_loop_dates (l : list doc) :
  Forall (λ t, pnl_of t = None ∨ is_Some (exit_day t)) l →
  ∀ acc acc', for_each equity_step l acc = Ret acc' →
    map date (fst acc') = map date (fst acc) ++ map Date.isoformat (exit_ordinals l).
Proof.
  unfold exit_ordinals.
  induction 1 as [|t l Ht Hl IH]; intros acc acc'; cbn [for_each]; csimpl.
  - intros [= <-]. by rewrite app_nil_r.
  - rewrite equity_step_eq. destruct (pnl_of t) as [p|] eqn:Hp.
    + destruct Ht as [Ht|[d Ht]]; [discriminate|]. unfold exit_day in Ht.
      destruct (get t "exit_date") as [| | | | |ms| |]; try discriminate.
      cbn [exit_datetime mbind outcome_bind]. intros Hloop.
      rewrite (IH _ _ Hloop). cbn [fst]. rewrite map_app, <- app_assoc. reflexivity.
    + cbn [mbind outcome_bind]. apply IH.
Qed.

(** The curve of a collection whose computable trades all have a
    stored [exit_date]: its points are in date order. *)
Lemma equity_curve_sorted (coll : list doc) (pts : list point) :
  Forall (λ t, pnl_of t = None ∨ is_Some (exit_day t)) coll →
  analytics_equity_curve (Some coll) = Ret pts →
  ∃ days, map date pts = map Date.isoformat days ∧ StronglySorted Z.le days.
Proof.
  intros H. apply equity_trades_Forall in H. unfold analytics_equity_curve.
  destruct (for_each equity_step (equity_trades coll) ([], F.zero)) as [acc|] eqn:Hloop;
    [|discriminate].
  cbn [mbind outcome_bind]. intros [= <-].
  exists (exit_ordinals (equity_trades coll)). split.
  - exact (equity_loop_dates _ H _ _ Hloop).
  - apply exit_ordinals_sorted, equity_trades_sorted.
Qed.
End SortFacts.

Lemma no_parse_valid : builtins_valid (B := Examples.no_parse).
Proof. intros s f. discriminate. Defined.

(** One win of 95 and one loss of 50: the profit factor is 95 / 50. *)
Lemma profit_factor_cases_witness :
  ∃ pf, F.div (F.of_Z 95) (F.of_Z 50) = Ret pf
    ∧ ∃ s, summarize (B := Examples.no_parse) [Examples.long_trade; Examples.losing_trade] = Ret s
         ∧ profit_factor s = pf.
Proof.
  destruct (profit_factor_cases (B := Examples.no_parse)
              [Examples.long_trade; Examples.losing_trade] no_parse_valid)
    as (pf & _ & Hdiv & _ & _ & _ & Hs & Hret).
  - repeat constructor.
  - exists pf. split.
    + apply Hdiv; discriminate.
    + destruct Hret as [s Hsum]; [repeat constructor|].
      exists s. split; [exact Hsum | exact (Hs s Hsum)].
Defined.

(** An open trade between two closed ones is counted and changes
    nothing else. *)
Lemma summary_counts_all_trades_witness :
  summarize (B := Examples.no_parse)
    ([Examples.long_trade] ++ Examples.open_trade :: [Examples.losing_trade])
  = (s ← summarize (B := Examples.no_parse) ([Examples.long_trade] ++ [Examples.losing_trade]);
     Ret (counted false s)).
Proof.
  exact (proj1 (proj2 (summary_counts_all_trades (B := Examples.no_parse)))
           [Examples.long_trade] Examples.open_trade [Examples.losing_trade] eq_refl).
Defined.


(** * Further properties of the handlers *)

Section PnlMore.
Context {B : Builtins}.

(** [trade_realized_pnl] returns a number exactly when [closed] is set
    and [entry_price], [exit_price], [quantity] and [fees] (0.0 when
    absent) are all accepted by [float]; in every other case it returns
    [None].  A [fees] that is present and not a number, [None]
    included, makes the PnL [None]. *)
Theorem realized_pnl_computable_iff (t : doc) :
  ((∃ p, trade_realized_pnl t = Ret (Some p))
   ↔ truthy (get t "closed") = true
     ∧ (∃ x, py_float (get t "entry_price") = Ret x)
     ∧ (∃ x, py_float (get t "exit_price") = Ret x)
     ∧ (∃ x, py_float (get t "quantity") = Ret x)
     ∧ (∃ x, py_float (get_or t "fees" (VFloat F.zero)) = Ret x))
  ∧ ((∀ p, trade_realized_pnl t ≠ Ret (Some p)) → trade_realized_pnl t = Ret None)
  ∧ (t !! "fees" = Some VNone → trade_realized_pnl t = Ret None).
Proof.
  split; [|split].
  - unfold trade_realized_pnl, trade_realized_pnl_try. split.
    + intros [p Hp]. destruct (truthy (get t "closed")); cbn [negb] in Hp; [|discriminate].
      destruct (py_float (get t "entry_price")) as [e|]; [|discriminate].
      destruct (py_float (get t "exit_price")) as [x|]; [|discriminate].
      destruct (py_float (get t "quantity")) as [q|]; [|discriminate].
      destruct (py_float (get_or t "fees" (VFloat F.zero))) as [f|]; [|discriminate].
      eauto 10.
    + intros (-> & [e ->] & [x ->] & [q ->] & [f ->]). by eexists.
  - intros Hno. destruct (pnl_returns t) as [[p|] Hr]; [|exact Hr].
    by destruct (Hno p).
  - intros Hf. unfold trade_realized_pnl, trade_realized_pnl_try, get_or. rewrite Hf.
    destruct (truthy (get t "closed")); cbn [negb]; [|reflexivity].
    destruct (py_float (get t "entry_price")) as [e|]; [|reflexivity].
    destruct (py_float (get t "exit_price")) as [x|]; [|reflexivity].
    destruct (py_float (get t "quantity")) as [q|]; reflexivity.
Qed.

(** The PnL of a trade depends on [closed], [entry_price], [exit_price],
    [quantity], [fees] and [side] only: writing or removing any other
    field leaves it unchanged. *)
Theorem realized_pnl_other_fields (t : doc) (k : string) (v : value) :
  k ∉ ["closed"; "entry_price"; "exit_price"; "quantity"; "fees"; "side"] →
  trade_realized_pnl (<[k := v]> t) = trade_realized_pnl t
  ∧ trade_realized_pnl (delete k t) = trade_realized_pnl t.
Proof.
  intros Hk.
  assert (Hne : ∀ k', k' ∈ ["closed"; "entry_price"; "exit_price"; "quantity"; "fees"; "side"] →
                      k ≠ k') by (intros k' Hk' ->; contradiction).
  assert (Hi : ∀ k', k' ∈ ["closed"; "entry_price"; "exit_price"; "quantity"; "fees"; "side"] →
                 (<[k := v]> t) !! k' = t !! k')
    by (intros k' Hk'; apply lookup_insert_ne, Hne, Hk').
  assert (Hd : ∀ k', k' ∈ ["closed"; "entry_price"; "exit_price"; "quantity"; "fees"; "side"] →
                 (delete k t) !! k' = t !! k')
    by (intros k' Hk'; apply lookup_delete_ne, Hne, Hk').
  unfold trade_realized_pnl, trade_realized_pnl_try, get, get_or.
  rewrite !Hi, !Hd by set_solver. split; reflexivity.
Qed.
End PnlMore.

(** Editing the notes of a trade does not change its PnL. *)
Lemma realized_pnl_other_fields_witness :
  trade_realized_pnl (B := Examples.no_parse) (<["notes" := VStr "stopped out"]> Examples.long_trade)
  = trade_realized_pnl (B := Examples.no_parse) Examples.long_trade.
Proof.
  refine (proj1 (realized_pnl_other_fields (B := Examples.no_parse)
                   Examples.long_trade "notes" (VStr "stopped out") _)).
  intros H. repeat (apply elem_of_cons in H as [H|H]; [discriminate|]).
  by apply elem_of_nil in H.
Defined.

Section GroupFacts.
Context {B : Builtins}.

Lemma key_eqb_str (k0 : value) (s : string) :
  Dict.key_eqb k0 (VStr s) = match k0 with VStr s0 => String.eqb s0 s | _ => false end.
Proof. destruct k0 as [|b|n|f|s0|ms|l|l]; try reflexivity. Qed.

Lemma key_eqb_str_l (s : string) (k : value) :
  Dict.key_eqb (VStr s) k = match k with VStr s' => String.eqb s s' | _ => false end.
Proof. destruct k as [|b|n|f|s0|ms|l|l]; reflexivity. Qed.

(** Reading a string key after a write. *)
Lemma dict_find_set (d : Dict.t) (k : value) (x : spec_float) (s : string) :
  Dict.find (Dict.set d k x) (VStr s)
  = if eq_str k s then Some x else Dict.find d (VStr s).
Proof.
  induction d as [|[k0 y] d IH]; cbn [Dict.set Dict.find].
  - rewrite key_eqb_str. destruct k; reflexivity.
  - destruct (Dict.key_eqb k0 k) eqn:Hk0; cbn [Dict.find].
    + rewrite !key_eqb_str. destruct k0 as [|b|n|f|s0|ms|l|l], k as [|b'|n'|f'|s'|ms'|l'|l'];
        simpl in *; try reflexivity; try discriminate.
      apply String.eqb_eq in Hk0 as ->. by destruct (String.eqb s' s).
    + rewrite IH. rewrite key_eqb_str.
      destruct k0 as [|b|n|f|s0|ms|l|l]; try reflexivity.
      destruct (String.eqb_spec s0 s) as [->|]; [|reflexivity].
      destruct k as [|b'|n'|f'|s'|ms'|l'|l']; try reflexivity.
      simpl in *. by rewrite String.eqb_sym, Hk0.
Qed.

(** A loop that adds the PnL of each computable trade under the key
    [keyv t]: what a string key holds once the loop has returned. *)
Lemma dict_loop (step : Dict.t → doc → outcome Dict.t) (keyv : doc → value) (l : list doc) :
  (∀ acc t, step acc t = match pnl_of t with
                         | None => Ret acc
                         | Some p => Dict.add acc (keyv t) p
                         end) →
  ∀ acc d, for_each step l acc = Ret d →
    ∀ s, Dict.find d (VStr s)
         = match omap (λ t, if eq_str (keyv t) s then pnl_of t else None) l with
           | [] => Dict.find acc (VStr s)
           | ps => Some (fold_left F.add ps (default F.zero (Dict.find acc (VStr s))))
           end.
Proof.
  intros Hstep. induction l as [|t l IH]; intros acc d; cbn [for_each].
  - intros [= <-] s. reflexivity.
  - rewrite Hstep. csimpl. destruct (pnl_of t) as [p|] eqn:Hp.
    + unfold Dict.add. destruct (Dict.hashable (keyv t)); [|discriminate].
      cbn [mbind outcome_bind]. intros Hd s.
      rewrite (IH _ _ Hd), dict_find_set.
      destruct (eq_str (keyv t) s) eqn:Hs; [|reflexivity].
      assert (keyv t = VStr s) as ->.
      { destruct (keyv t); try discriminate. simpl in Hs. by apply String.eqb_eq in Hs as ->. }
      cbn [default fold_left]. by destruct (omap _ l).
    + cbn [mbind outcome_bind]. intros Hd s. rewrite (IH _ _ Hd).
      by destruct (eq_str (keyv t) s).
Qed.

(** Open trades, having no PnL, can be left in or out of a grouping. *)
Lemma omap_pnl_closed_of (f : doc → option spec_float) (trades : list doc) :
  (∀ t, pnl_of t = None → f t = None) →
  omap f (closed_of trades) = omap f trades.
Proof.
  intros Hf. unfold closed_of. induction trades as [|t l IH]; csimpl; [done|].
  destruct (truthy (get t "closed")) eqn:Hc; csimpl; rewrite IH; [done|].
  by rewrite (Hf t (pnl_of_not_closed t Hc)).
Qed.


End GroupFacts.

Section GroupClaims.
Context {B : Builtins}.

(** [by_symbol] of a returned summary holds, under each symbol, the sum
    from left to right of the computable PnLs of the trades with that
    symbol, and holds no entry for a symbol without such a trade; the
    summary is returned for every sequence of records whose numeric and
    grouping fields are usable. *)
Theorem by_symbol_sums (trades : list doc) :
  (∀ s, summarize trades = Ret s →
     ∀ sym, Dict.find (by_symbol s) (VStr sym)
            = match symbol_pnls sym trades with
              | [] => None
              | ps => Some (py_sum ps)
              end)
  ∧ (builtins_valid →
     Forall (λ t, floats_valid t = true) trades →
     Forall (λ t, groupable t = true) trades →
     ∃ s, summarize trades = Ret s).
Proof.
  split; [|apply summarize_returns].
  intros s Hs sym. apply summarize_stats in Hs as (_ & _ & _ & _ & _ & _ & _ & _ & Hs & _).
  rewrite (dict_loop by_symbol_step (λ t, get t "symbol") _ by_symbol_step_eq _ _ Hs sym).
  unfold symbol_pnls. rewrite omap_pnl_closed_of; [reflexivity|].
  intros t ->. by destruct (eq_str _ _).
Qed.

(** [by_strategy] of a returned summary holds, under each label, the sum
    from left to right of the computable PnLs of the trades with that
    strategy; the trades whose strategy is unset ([None], absent or
    empty) are summed under ["Unlabeled"], together with the trades
    whose strategy is the string ["Unlabeled"]. *)
Theorem by_strategy_sums (trades : list doc) :
  (∀ s, summarize trades = Ret s →
     ∀ label, Dict.find (by_strategy s) (VStr label)
              = match label_pnls label trades with
                | [] => None
                | ps => Some (py_sum ps)
                end)
  ∧ (∀ t, truthy (get t "strategy") = false → strategy_label t = VStr "Unlabeled")
  ∧ (builtins_valid →
     Forall (λ t, floats_valid t = true) trades →
     Forall (λ t, groupable t = true) trades →
     ∃ s, summarize trades = Ret s).
Proof.
  split; [|split; [|apply summarize_returns]].
  - intros s Hs label.
    apply summarize_stats in Hs as (_ & _ & _ & _ & _ & _ & _ & _ & _ & Hs & _).
    rewrite (dict_loop by_strategy_step strategy_label _ by_strategy_step_eq _ _ Hs label).
    unfold label_pnls. rewrite omap_pnl_closed_of; [reflexivity|].
    intros t ->. by destruct (eq_str _ _).
  - intros t Ht. unfold strategy_label, py_or. by rewrite Ht.
Qed.

End GroupClaims.

Lemma by_symbol_sums_witness :
  ∃ s, summarize (B := Examples.no_parse)
         [Examples.long_trade; Examples.losing_trade; Examples.short_trade] = Ret s
     ∧ Dict.find (by_symbol s) (VStr "AAPL") = Some (F.of_Z 143)
     ∧ Dict.find (by_symbol s) (VStr "MSFT") = Some (F.of_Z (-50))
     ∧ Dict.find (by_symbol s) (VStr "TSLA") = None.
Proof.
  destruct (proj2 (by_symbol_sums (B := Examples.no_parse)
                     [Examples.long_trade; Examples.losing_trade; Examples.short_trade])
              no_parse_valid) as [s Hs]; [repeat constructor..|].
  exists s. split; [exact Hs|].
  pose proof (proj1 (by_symbol_sums (B := Examples.no_parse) _) s Hs) as H.
  split; [exact (H "AAPL") | split; [exact (H "MSFT") | exact (H "TSLA")]].
Defined.

Lemma by_strategy_sums_witness :
  ∃ s, summarize (B := Examples.no_parse)
         [Examples.long_trade; <["strategy" := VStr "breakout"]> Examples.losing_trade;
          Examples.short_trade] = Ret s
     ∧ Dict.find (by_strategy s) (VStr "Unlabeled") = Some (F.of_Z 143)
     ∧ Dict.find (by_strategy s) (VStr "breakout") = Some (F.of_Z (-50)).
Proof.
  destruct (proj2 (proj2 (by_strategy_sums (B := Examples.no_parse)
                     [Examples.long_trade; <["strategy" := VStr "breakout"]> Examples.losing_trade;
                      Examples.short_trade]))
              no_parse_valid) as [s Hs]; [repeat constructor..|].
  exists s. split; [exact Hs|].
  pose proof (proj1 (by_strategy_sums (B := Examples.no_parse) _) s Hs) as H.
  split; [exact (H "Unlabeled") | exact (H "breakout")].
Defined.


Section EquityMore.
Context {B : Builtins}.

Lemma exit_datetime_key (t : doc) (d : datetime) :
  exit_datetime (get t "exit_date") = Ret d →
  exit_date_key t = Some (Date.isoformat (Date.date d)).
Proof.
  unfold exit_datetime, exit_date_key, parse_date.
  destruct (get t "exit_date") as [| | | |s|ms| |]; try discriminate.
  - destruct (fromisoformat s); [|discriminate]. by intros [= ->].
  - by intros [= <-].
Qed.

Lemma exit_datetime_raises (t : doc) :
  exit_date_ok t = false → ∃ e, exit_datetime (get t "exit_date") = Raise e.
Proof.
  unfold exit_date_ok, exit_datetime, parse_date.
  destruct (get t "exit_date") as [| | | |s|ms| |]; try discriminate; try by eexists.
  intros H. apply bool_decide_eq_false in H.
  destruct (fromisoformat s) as [d|]; [|by eexists]. destruct H. by eexists.
Qed.

(** The points the loop of the curve has added once it has returned. *)
Lemma equity_loop_points (l : list doc) : ∀ acc acc',
  for_each equity_step l acc = Ret acc' →
  map equity (fst acc') = map equity (fst acc) ++ running_sums (snd acc) (omap pnl_of l)
  ∧ map date (fst acc') = map date (fst acc) ++ curve_days l.
Proof.
  unfold curve_days.
  induction l as [|t l IH]; intros acc acc'; cbn [for_each]; csimpl.
  - intros [= <-]. by rewrite !app_nil_r.
  - rewrite equity_step_eq. destruct (pnl_of t) as [p|] eqn:Hp.
    + destruct (exit_datetime (get t "exit_date")) as [d|] eqn:Hd; [|discriminate].
      cbn [mbind outcome_bind]. intros Hloop.
      destruct (IH _ _ Hloop) as [H1 H2]. cbn [fst snd] in *.
      rewrite H1, H2, !map_app, <- !app_assoc, (exit_datetime_key t d Hd). split; reflexivity.
    + cbn [mbind outcome_bind]. apply IH.
Qed.

(** A loop raises as soon as its sequence holds an element on which
    the body raises whatever the state. *)
Lemma for_each_raises {A S} (step : S → A → outcome S) (x : A) (l : list A) :
  (∀ acc, ∃ e, step acc x = Raise e) → x ∈ l → ∀ acc, ∃ e, for_each step l acc = Raise e.
Proof.
  intros Hx. induction l as [|y l IH]; intros Hin acc; [by apply elem_of_nil in Hin|].
  cbn [for_each]. destruct (step acc y) as [acc'|e] eqn:Hy; [|by eexists].
  cbn [mbind outcome_bind]. apply elem_of_cons in Hin as [->|Hin].
  - destruct (Hx acc) as [e He]. congruence.
  - by apply IH.
Qed.

Lemma equity_trades_elem (coll : list doc) (t : doc) :
  t ∈ equity_trades coll
  ↔ t ∈ coll ∧ Store.matches [("closed", Store.EqBool true); ("exit_price", Store.NeNull)] t = true.
Proof.
  rewrite equity_trades_perm. unfold Store.find.
  rewrite !list_elem_of_In. apply List.filter_In.
Qed.

(** The curve holds one point per computable trade among the closed
    trades with an exit price, taken in ascending [exit_date] order:
    the point of a trade carries the day of its [exit_date] and the sum
    of the PnLs up to and including its own, so trades closed on the
    same day keep separate points.  The curve is returned when every
    such trade has an [exit_date] that is a stored date or a string
    accepted by [datetime.fromisoformat]. *)
Theorem equity_curve_points (coll : list doc) :
  (∀ pts, analytics_equity_curve (Some coll) = Ret pts →
     map equity pts = running_sums F.zero (computable_pnls (equity_trades coll))
     ∧ map date pts = curve_days (equity_trades coll)
     ∧ length pts = length (computable_pnls (equity_trades coll)))
  ∧ (Forall (λ t, pnl_of t = None ∨ exit_date_ok t = true) (equity_trades coll) →
     ∃ pts, analytics_equity_curve (Some coll) = Ret pts).
Proof.
  unfold analytics_equity_curve. split.
  - intros pts.
    destruct (for_each equity_step (equity_trades coll) ([], F.zero)) as [acc|] eqn:Hloop;
      [|discriminate].
    cbn [mbind outcome_bind]. intros [= <-].
    destruct (equity_loop_points _ _ _ Hloop) as [H1 H2]. cbn [fst snd map app] in *.
    split; [exact H1|]. split; [exact H2|].
    rewrite <- (length_map equity), H1. clear.
    generalize F.zero. unfold computable_pnls.
    induction (omap pnl_of (equity_trades coll)) as [|p ps IH]; intros c; simpl; [done|].
    by rewrite IH.
  - intros H. destruct (equity_loop _ H ([], F.zero) eq_refl) as (acc & -> & _).
    by eexists.
Qed.

(** The curve is never returned when the collection holds a closed
    trade with an exit price and a computable PnL whose [exit_date] is
    neither a stored date nor a string accepted by
    [datetime.fromisoformat] (it is absent, [None], a number, ...): the
    handler raises. *)
Theorem equity_curve_raises (coll : list doc) (t : doc) :
  t ∈ coll →
  get t "closed" = VBool true →
  t !! "exit_price" ≠ None → get t "exit_price" ≠ VNone →
  is_Some (pnl_of t) →
  exit_date_ok t = false →
  ∃ e, analytics_equity_curve (Some coll) = Raise e.
Proof.
  intros Hin Hc Hx1 Hx2 [p Hp] Hd.
  assert (Hsel : t ∈ equity_trades coll).
  { apply equity_trades_elem. split; [exact Hin|].
    unfold Store.matches, get in *. simpl.
    destruct (t !! "closed") as [[|[]| | | | | |]|]; simpl in Hc; try discriminate.
    destruct (t !! "exit_price") as [[]|]; simpl in *; try reflexivity; contradiction. }
  unfold analytics_equity_curve.
  destruct (for_each_raises equity_step t (equity_trades coll)) with (acc := ([] : list point, F.zero))
    as [e ->]; [|exact Hsel|by eexists].
  intros acc. rewrite equity_step_eq, Hp.
  destruct (exit_datetime_raises t Hd) as [e ->]. by eexists.
Qed.

(** When the computable trades of the collection all have a stored
    [exit_date], the curve is returned and its points are in date
    order: their dates are the ISO dates of a non-decreasing sequence
    of days. *)
Theorem equity_curve_in_date_order (coll : list doc) :
  Forall (λ t, pnl_of t = None ∨ is_Some (exit_day t)) coll →
  ∃ pts days, analytics_equity_curve (Some coll) = Ret pts
    ∧ map date pts = map Date.isoformat days
    ∧ StronglySorted Z.le days.
Proof.
  intros H.
  assert (Hok : Forall (λ t, pnl_of t = None ∨ exit_date_ok t = true) (equity_trades coll)).
  { apply equity_trades_Forall. apply (Forall_impl _ _ _ H).
    intros t [Ht|[d Ht]]; [by left|right].
    unfold exit_day in Ht. unfold exit_date_ok. by destruct (get t "exit_date"). }
  destruct (equity_loop _ Hok ([], F.zero) eq_refl) as (acc & Hloop & _).
  assert (Hret : analytics_equity_curve (Some coll) = Ret (fst acc))
    by (unfold analytics_equity_curve; rewrite Hloop; reflexivity).
  destruct (equity_curve_sorted coll (fst acc) H Hret) as (days & Hd & Hs).
  exists (fst acc), days. split; [exact Hret|]. split; [exact Hd | exact Hs].
Qed.
End EquityMore.

Lemma equity_curve_points_witness :
  ∃ pts, analytics_equity_curve (B := Examples.no_parse)
           (Some [Examples.losing_trade; Examples.open_trade; Examples.long_trade;
                  Examples.short_trade]) = Ret pts
    ∧ map equity pts = [F.of_Z 48; F.of_Z 143; F.of_Z 93]
    ∧ map date pts = ["2024-03-15"; "2024-03-15"; "2024-03-16"].
Proof.
  destruct (proj2 (equity_curve_points (B := Examples.no_parse)
                     [Examples.losing_trade; Examples.open_trade; Examples.long_trade;
                      Examples.short_trade])) as [pts Hpts].
  - apply equity_trades_Forall.
    repeat constructor; first [right; reflexivity | left; reflexivity].
  - exists pts. split; [exact Hpts|].
    destruct (proj1 (equity_curve_points (B := Examples.no_parse) _) pts Hpts) as (H1 & H2 & _).
    split; [exact H1 | exact H2].
Defined.

Lemma equity_curve_raises_witness :
  ∃ e, analytics_equity_curve (B := Examples.no_parse)
         (Some [Examples.long_trade; Examples.undated_trade]) = Raise e.
Proof.
  apply (equity_curve_raises (B := Examples.no_parse) _ Examples.undated_trade).
  - apply elem_of_cons. right. apply elem_of_cons. by left.
  - reflexivity.
  - discriminate.
  - discriminate.
  - by eexists.
  - reflexivity.
Defined.

Lemma equity_curve_in_date_order_witness :
  ∃ pts days, analytics_equity_curve (B := Examples.no_parse)
                (Some Examples.fractional_trades) = Ret pts
    ∧ map date pts = map Date.isoformat days
    ∧ StronglySorted Z.le days.
Proof.
  apply equity_curve_in_date_order.
  do 3 (apply List.Forall_cons; [right; by eexists|]). apply List.Forall_nil.
Defined.

Section SummaryMore.
Context {B : Builtins}.

Lemma for_each_all_skipped {S} (step : S → doc → outcome S) (l : list doc) (acc : S) :
  Forall (λ t, ∀ a, step a t = Ret a) l → for_each step l acc = Ret acc.
Proof.
  induction 1 as [|t l Ht Hl IH]; cbn [for_each]; [done|].
  rewrite Ht. exact IH.
Qed.

Lemma computable_none (trades : list doc) :
  computable_pnls trades = [] → Forall (λ t, pnl_of t = None) trades.
Proof.
  unfold computable_pnls. induction trades as [|t l IH]; csimpl; [constructor|].
  destruct (pnl_of t) eqn:Hp; [discriminate|]. intros H. constructor; auto.
Qed.

(** A sequence without any computable PnL (only open trades, or closed
    trades that lack a price) is summarized without error like the
    empty one: the counts apart, every statistic is 0 and every
    grouping is empty. *)
Theorem summarize_nothing_computable (trades : list doc) :
  computable_pnls trades = [] →
  summarize trades =
    Ret {| total_trades := length trades;
           closed_trades := length (List.filter (λ t, truthy (get t "closed")) trades);
           win_rate := F.zero; net_pnl := F.zero;
           avg_win := F.zero; avg_loss := F.zero;
           profit_factor := F.zero; expectancy := F.zero;
           by_symbol := []; by_strategy := []; monthly := ∅ |}.
Proof.
  intros Hnone. pose proof (computable_none trades Hnone) as Hall.
  apply Forall_closed_of in Hall.
  unfold summarize. rewrite tally_summary. unfold wins_of, losses_of. rewrite Hnone.
  cbn [mbind outcome_bind pnls wins losses List.filter win_rate_of avg_of profit_factor_of
       net_pnl_of].
  rewrite (for_each_all_skipped by_symbol_step), (for_each_all_skipped by_strategy_step),
    (for_each_all_skipped monthly_step).
  - vm_compute expectancy_of. reflexivity.
  - apply (Forall_impl _ _ _ Hall). intros t Ht a. by rewrite monthly_step_eq, Ht.
  - apply (Forall_impl _ _ _ Hall). intros t Ht a. by rewrite by_strategy_step_eq, Ht.
  - apply (Forall_impl _ _ _ Hall). intros t Ht a. by rewrite by_symbol_step_eq, Ht.
Qed.

End SummaryMore.

Lemma summarize_nothing_computable_witness :
  summarize (B := Examples.no_parse)
    [Examples.open_trade; delete "exit_price" Examples.long_trade] =
    Ret {| total_trades := 2; closed_trades := 1;
           win_rate := F.zero; net_pnl := F.zero;
           avg_win := F.zero; avg_loss := F.zero;
           profit_factor := F.zero; expectancy := F.zero;
           by_symbol := []; by_strategy := []; monthly := ∅ |}.
Proof.
  exact (summarize_nothing_computable (B := Examples.no_parse)
           [Examples.open_trade; delete "exit_price" Examples.long_trade] eq_refl).
Defined.


Section CalendarMore.
Context {B : Builtins}.

Lemma day_pnls_nonempty (day : string) (l : list doc) :
  day_pnls day l ≠ [] → ∃ t p, t ∈ l ∧ exit_day t = Some day ∧ pnl_of t = Some p.
Proof.
  unfold day_pnls. induction l as [|t l IH]; csimpl; [done|].
  destruct (decide (exit_day t = Some day)) as [Hd|Hd].
  - destruct (pnl_of t) as [p|] eqn:Hp.
    + intros _. exists t, p. split; [apply elem_of_cons; by left|done].
    + intros H. destruct (IH H) as (t' & p & Hin & H'). exists t', p.
      split; [apply elem_of_cons; by right|done].
  - intros H. destruct (IH H) as (t' & p & Hin & H'). exists t', p.
    split; [apply elem_of_cons; by right|done].
Qed.

(** Every day of the calendar is the UTC day of the stored [exit_date]
    of a trade of the collection that has [closed = True], a computable
    PnL and an [exit_date] within the window, bounds included; trades
    that are open, non-computable or outside the window never show.  A
    window whose start lies after its end gives an empty calendar, not
    an error. *)
Theorem calendar_days_in_window (coll : list doc) (now : datetime) (start end_ : option string)
    (start_dt end_dt : datetime) (c : calendar) :
  window now start end_ = Ret (start_dt, end_dt) →
  analytics_calendar (Some coll) now start end_ = Ret c →
  (∀ day, is_Some (daily c !! day) →
     ∃ t ms, t ∈ coll ∧ get t "closed" = VBool true ∧ is_Some (pnl_of t)
       ∧ get t "exit_date" = VDate ms
       ∧ Date.to_millis start_dt ≤ ms ≤ Date.to_millis end_dt
       ∧ day = Date.isoformat (Date.date (Date.of_millis ms)))
  ∧ (Date.to_millis end_dt < Date.to_millis start_dt → daily c = ∅).
Proof.
  intros Hw Hc. destruct (calendar_returns coll now start end_ _ _ Hw) as (m & Hm & Hday).
  rewrite Hm in Hc. injection Hc as <-. cbn [daily].
  assert (Hsel : ∀ day, is_Some (m !! day) →
            ∃ t p, t ∈ coll
              ∧ closed_in_window (Date.to_millis start_dt) (Date.to_millis end_dt) t = true
              ∧ exit_day t = Some day ∧ pnl_of t = Some p).
  { intros day Hsome. rewrite Hday in Hsome.
    destruct (day_pnls_nonempty day
                (List.filter (closed_in_window (Date.to_millis start_dt)
                                               (Date.to_millis end_dt)) coll))
      as (t & p & Hin & Hd & Hp).
    - intros Hnil. rewrite Hnil in Hsome. by destruct Hsome.
    - apply list_elem_of_In, List.filter_In in Hin as [Hin Hcw].
      exists t, p. by rewrite list_elem_of_In. }
  split.
  - intros day Hsome. destruct (Hsel day Hsome) as (t & p & Hin & Hcw & Hd & Hp).
    unfold closed_in_window, closed_is_true in Hcw. unfold exit_day in Hd.
    apply andb_prop in Hcw as [Hc1 Hc2].
    destruct (get t "closed") as [|[]| | | | | |] eqn:Hclosed; try discriminate.
    destruct (get t "exit_date") as [| | | | |ms| |] eqn:Hexit; try discriminate.
    apply andb_prop in Hc2 as [Hlo Hhi]. apply Z.leb_le in Hlo, Hhi.
    injection Hd as <-. exists t, ms. rewrite Hp.
    split; [exact Hin|]. split; [exact Hclosed|]. split; [by eexists|].
    split; [exact Hexit|]. split; [lia | reflexivity].
  - intros Hinv. apply map_eq. intros day. rewrite lookup_empty.
    destruct (m !! day) as [x|] eqn:Hx; [|reflexivity].
    destruct (Hsel day) as (t & p & Hin & Hcw & _); [by rewrite Hx|].
    unfold closed_in_window in Hcw. apply andb_prop in Hcw as [_ Hc2].
    destruct (get t "exit_date") as [| | | | |ms| |]; try discriminate.
    apply andb_prop in Hc2 as [Hlo Hhi]. apply Z.leb_le in Hlo, Hhi. lia.
Qed.
End CalendarMore.

Lemma calendar_days_in_window_witness :
  ∃ t ms, t ∈ [Examples.open_trade; Examples.march_trade]
    ∧ get t "closed" = VBool true ∧ is_Some (pnl_of (B := Examples.no_parse) t)
    ∧ get t "exit_date" = VDate ms
    ∧ Date.to_millis {| ordinal := 738797; usec := 0; utcoffset := Some 0 |} ≤ ms
      ≤ Date.to_millis Examples.now
    ∧ "2024-03-15" = Date.isoformat (Date.date (Date.of_millis ms)).
Proof.
  refine (proj1 (calendar_days_in_window (B := Examples.no_parse)
                   [Examples.open_trade; Examples.march_trade] Examples.now None None
                   {| ordinal := 738797; usec := 0; utcoffset := Some 0 |} Examples.now
                   {| cal_start := "2023-10-04"; cal_end := "2024-04-01";
                      daily := {[ "2024-03-15" := F.of_Z 42 ]} |} eq_refl _)
            "2024-03-15" _).
  - vm_compute. reflexivity.
  - by eexists.
Defined.

